(** * Enterprise calculator: the engine of [script.js], embedded and verified

    The calculator of [script.js] is a model (private state behind
    [CalculatorModel]), a controller ([CalculatorController]) that turns key
    and button events into model updates, a table of arithmetic strategies
    ([CalculationStrategies]) and an undo stack ([CommandHistory]).

    JavaScript numbers are IEEE 754 binary64 values, so they are embedded as
    Rocq's primitive floats; strings are [string]; an exception is a value
    [Throw msg] of the [completion] type.  The DOM, the logger and
    [localStorage] are outside the embedding, apart from the error and toast
    notices a controller operation raises, which are returned with the new
    state; the event emitter is embedded on its own. *)

From Stdlib Require Import ZArith List String Ascii Bool Lia.
From Stdlib Require Import Floats.
Import ListNotations.
Open Scope string_scope.
Open Scope Z_scope.

(** ** Exceptions *)

(** A call either returns normally or throws [new Error(message)]. *)
Inductive completion (A : Type) : Type :=
| Normal (a : A)
| Throw (message : string).
Arguments Normal {A} a.
Arguments Throw {A} message.

(** ** The fragment of the ECMAScript runtime the program calls *)

Module JS.

Definition number := float.

(** [isNaN] and [isFinite] on a value that is already a number. *)
Definition isNaN (x : number) : bool := PrimFloat.is_nan x.
Definition isFinite (x : number) : bool := PrimFloat.is_finite x.

(** [a === b], [a < b], [a <= b] and [a > b] on numbers. *)
Definition strict_eq (a b : number) : bool := PrimFloat.eqb a b.
Definition lt (a b : number) : bool := PrimFloat.ltb a b.
Definition le (a b : number) : bool := PrimFloat.leb a b.
Definition gt (a b : number) : bool := PrimFloat.ltb b a.
Definition ge (a b : number) : bool := PrimFloat.leb b a.

(** [v || 0] on a number: NaN and both zeros are falsy. *)
Definition or_zero (v : number) : number :=
  if isNaN v || strict_eq v zero then zero else v.

(** [Number.isInteger]. *)
Definition isInteger (x : number) : bool :=
  match Prim2SF x with
  | S754_zero _ => true
  | S754_finite _ m e => (0 <=? e) || (Zpos m mod 2 ^ (- e) =? 0)
  | _ => false
  end.

(** *** Exact arithmetic on the value of a number

    A finite double is [m * 2^e]; conversions to and from decimal text work
    on that exact value, as non-negative fractions [(num, den)]. *)

Definition frac_of (m e : Z) : Z * Z :=
  if 0 <=? e then (m * 2 ^ e, 1) else (m, 2 ^ (- e)).

(** [scale10 q p] is [q / 10^p]. *)
Definition scale10 (q : Z * Z) (p : Z) : Z * Z :=
  let '(num, den) := q in
  if 0 <=? p then (num, den * 10 ^ p) else (num * 10 ^ (- p), den).

Definition qfloor (q : Z * Z) : Z := fst q / snd q.

Definition qcompare (a b : Z * Z) : comparison :=
  fst a * snd b ?= fst b * snd a.

Definition qle (a b : Z * Z) : bool :=
  match qcompare a b with Gt => false | _ => true end.

Definition qlt (a b : Z * Z) : bool :=
  match qcompare a b with Lt => true | _ => false end.

(** Round half up to an integer. *)
Definition qround (q : Z * Z) : Z := (2 * fst q + snd q) / (2 * snd q).

(** Decimal digits of a non-negative integer. *)
Definition digit_char (d : Z) : ascii := ascii_of_nat (48 + Z.to_nat d).

Fixpoint digits_aux (fuel : nat) (n : Z) (acc : string) : string :=
  match fuel with
  | O => acc
  | S fuel' =>
      let acc' := String (digit_char (n mod 10)) acc in
      if n <? 10 then acc' else digits_aux fuel' (n / 10) acc'
  end.

Definition digits (n : Z) : string :=
  digits_aux (S (Z.to_nat (Z.log2 n))) n "".

Fixpoint zeros (n : nat) : string :=
  match n with
  | O => ""
  | S n' => String "0" (zeros n')
  end.

(** [ilog10 q] is the [d] with [10^d <= q < 10^(d+1)], for [q > 0]: the
    search climbs from an estimate that lies below [d]. *)
Fixpoint ilog10_from (fuel : nat) (d : Z) (q : Z * Z) : Z :=
  match fuel with
  | O => d
  | S fuel' =>
      if qle (1, 1) (scale10 q (d + 1)) then ilog10_from fuel' (d + 1) q else d
  end.

Definition ilog10 (q : Z * Z) : Z :=
  let l := Z.log2 (fst q) - Z.log2 (snd q) - 1 in
  ilog10_from 8 (l * 30103 / 100000 - 2) q.

(** The reals that round to the double [m * 2^e] (round to nearest, ties to
    even): between the two midpoints, which belong to the interval when [m]
    is even. *)
Definition rounding_interval (m e : Z) : (Z * Z) * (Z * Z) * bool :=
  let lo :=
    if (m =? 2 ^ 52) && (-1074 <? e) then frac_of (4 * m - 1) (e - 2)
    else frac_of (2 * m - 1) (e - 1) in
  (lo, frac_of (2 * m + 1) (e - 1), Z.even m).

Definition within (iv : (Z * Z) * (Z * Z) * bool) (v : Z * Z) : bool :=
  let '(lo, hi, closed) := iv in
  if closed then qle lo v && qle v hi else qlt lo v && qlt v hi.

(** For [a <= x <= b], the comparison of [x - a] with [b - x]. *)
Definition closer (x a b : Z * Z) : comparison :=
  qcompare (2 * fst x, snd x) (fst a * snd b + fst b * snd a, snd a * snd b).

(** Number::toString, step 5: integers [(s, k, n)] with [k] as small as
    possible, [10^(k-1) <= s < 10^k] and [s * 10^(n-k)] rounding to the
    number; among the candidates with [k] digits, the one closest to it. *)
Fixpoint shortest_from (fuel : nat) (k : Z) (m e d : Z) : Z * Z * Z :=
  let x := frac_of m e in
  let n := d + 1 in
  let p := n - k in
  let s1 := qfloor (scale10 x p) in
  let s2 := s1 + 1 in
  let v1 := scale10 (s1, 1) (- p) in
  let v2 := scale10 (s2, 1) (- p) in
  let iv := rounding_interval m e in
  let pick s := if s =? 10 ^ k then (1, 1, n + 1) else (s, k, n) in
  match within iv v1, within iv v2 with
  | true, true =>
      match closer x v1 v2 with
      | Lt => pick s1
      | Gt => pick s2
      | Eq => if Z.even s1 then pick s1 else pick s2
      end
  | true, false => pick s1
  | false, true => pick s2
  | false, false =>
      match fuel with
      | O => pick s1
      | S fuel' => shortest_from fuel' (k + 1) m e d
      end
  end.

Definition shortest (m e : Z) : Z * Z * Z :=
  shortest_from 17 1 m e (ilog10 (frac_of m e)).

Definition exponent_suffix (e : Z) : string :=
  "e" ++ (if 0 <=? e then "+" else "-") ++ digits (Z.abs e).

Definition insert_point (s : string) (i : nat) : string :=
  substring 0 i s ++ "." ++ substring i (String.length s - i) s.

(** [Number.prototype.toString()], radix 10. *)
Definition toString (x : number) : string :=
  match Prim2SF x with
  | S754_nan => "NaN"
  | S754_zero _ => "0"
  | S754_infinity s => if s then "-Infinity" else "Infinity"
  | S754_finite sg mp e =>
      let '(s, k, n) := shortest (Zpos mp) e in
      let ds := digits s in
      let body :=
        if (k <=? n) && (n <=? 21) then ds ++ zeros (Z.to_nat (n - k))
        else if (0 <? n) && (n <=? 21) then insert_point ds (Z.to_nat n)
        else if (-6 <? n) && (n <=? 0) then "0." ++ zeros (Z.to_nat (- n)) ++ ds
        else if k =? 1 then ds ++ exponent_suffix (n - 1)
        else insert_point ds 1 ++ exponent_suffix (n - 1) in
      if sg then "-" ++ body else body
  end.

(** [Number.prototype.toExponential(f)], [0 <= f <= 100]: [f] digits after
    the point, the mantissa rounded half up on the exact value. *)
Definition toExponential (f : Z) (x : number) : string :=
  let mantissa (m : string) := if f =? 0 then m else insert_point m 1 in
  match Prim2SF x with
  | S754_nan => "NaN"
  | S754_infinity s => if s then "-Infinity" else "Infinity"
  | S754_zero s =>
      (if s then "-" else "") ++ mantissa (zeros (Z.to_nat (f + 1))) ++ "e+0"
  | S754_finite sg mp e =>
      let q := frac_of (Zpos mp) e in
      let d := ilog10 q in
      let n0 := qround (scale10 q (d - f)) in
      let '(n, ex) := if n0 =? 10 ^ (f + 1) then (10 ^ f, d + 1) else (n0, d) in
      (if sg then "-" else "") ++ mantissa (digits n) ++ exponent_suffix ex
  end.

(** The Number value for a non-negative fraction: round to nearest, ties to
    even.  The quotient is taken with 67 bits and a sticky bit, which the
    53-bit rounding of [binary_normalize] then finishes exactly. *)
Definition number_of_fraction (neg : bool) (q : Z * Z) : number :=
  let '(num, den) := q in
  if num =? 0 then (if neg then neg_zero else zero)
  else
    let t := 66 + Z.log2 den - Z.log2 num in
    let '(a, b) :=
      if 0 <=? t then (num * 2 ^ t, den) else (num, den * 2 ^ (- t)) in
    let m := 2 * (a / b) + (if a mod b =? 0 then 0 else 1) in
    let r := SF2Prim (binary_normalize prec emax m (- t - 1) false) in
    if neg then (- r)%float else r.

(** *** parseFloat *)

Definition is_digit (c : ascii) : bool :=
  let n := nat_of_ascii c in (48 <=? n)%nat && (n <=? 57)%nat.

(** The ASCII members of StrWhiteSpaceChar. *)
Definition is_space (c : ascii) : bool :=
  let n := nat_of_ascii c in
  ((9 <=? n)%nat && (n <=? 13)%nat) || (n =? 32)%nat.

Fixpoint trim_start (s : string) : string :=
  match s with
  | String c s' => if is_space c then trim_start s' else s
  | EmptyString => s
  end.

(** The longest prefix of decimal digits, and what follows it. *)
Fixpoint span_digits (s : string) : string * string :=
  match s with
  | String c s' =>
      if is_digit c then let '(ds, r) := span_digits s' in (String c ds, r)
      else ("", s)
  | EmptyString => ("", "")
  end.

Fixpoint Z_of_digits (acc : Z) (s : string) : Z :=
  match s with
  | String c s' => Z_of_digits (10 * acc + (Z.of_nat (nat_of_ascii c) - 48)) s'
  | EmptyString => acc
  end.

(** The optional ExponentPart at the head of [s]: its value, 0 when absent
    or incomplete. *)
Definition exponent_part (s : string) : Z :=
  match s with
  | String c s' =>
      if (Ascii.eqb c "e" || Ascii.eqb c "E")%bool then
        let '(neg, s'') :=
          match s' with
          | String "-" r => (true, r)
          | String "+" r => (false, r)
          | _ => (false, s')
          end in
        let '(ds, _) := span_digits s'' in
        if (String.length ds =? 0)%nat then 0
        else if neg then - Z_of_digits 0 ds else Z_of_digits 0 ds
      else 0
  | EmptyString => 0
  end.

(** [parseFloat] on a string: white space is skipped, the longest prefix
    that is a StrDecimalLiteral is read, and NaN is returned when there is
    none.  An exponent beyond every double in either direction is clamped,
    which does not change the rounded value. *)
Definition parseFloat (input : string) : number :=
  let s0 := trim_start input in
  let '(neg, s1) :=
    match s0 with
    | String "-" r => (true, r)
    | String "+" r => (false, r)
    | _ => (false, s0)
    end in
  if String.prefix "Infinity" s1 then (if neg then neg_infinity else infinity)
  else
    let '(ip, r1) := span_digits s1 in
    let '(fp, r2) :=
      match r1 with
      | String "." r => span_digits r
      | _ => ("", r1)
      end in
    if (String.length ip + String.length fp =? 0)%nat then nan
    else
      let mant := Z_of_digits 0 (ip ++ fp) in
      let len := Z.of_nat (String.length ip + String.length fp) in
      let ex := exponent_part r2 - Z.of_nat (String.length fp) in
      let ex := Z.max (- (400 + len)) (Z.min 400 ex) in
      number_of_fraction neg (scale10 (mant, 1) (- ex)).

(** *** The remainder operator [a % b]: exact, with the sign of [a]. *)
Definition rem (a b : number) : number :=
  match Prim2SF a, Prim2SF b with
  | S754_nan, _ | _, S754_nan => nan
  | S754_infinity _, _ => nan
  | _, S754_zero _ => nan
  | _, S754_infinity _ => a
  | S754_zero _, _ => a
  | S754_finite sa ma ea, S754_finite _ mb eb =>
      let e0 := Z.min ea eb in
      let r := Z.rem (Zpos ma * 2 ^ (ea - e0)) (Zpos mb * 2 ^ (eb - e0)) in
      number_of_fraction sa (frac_of r e0)
  end.

(** [Math.PI] and [Math.E]. *)
Definition Math_PI : number := 0x1.921fb54442d18p+1%float.
Definition Math_E : number := 0x1.5bf0a8b145769p+1%float.

(** *** Strings *)

Fixpoint includes_char (c : ascii) (s : string) : bool :=
  match s with
  | String c' s' => Ascii.eqb c c' || includes_char c s'
  | EmptyString => false
  end.

(** [s.slice(0, -1)]. *)
Definition drop_last (s : string) : string :=
  substring 0 (String.length s - 1) s.

End JS.

Import JS.

(** ** What the host decides

    ECMAScript leaves the transcendental functions of [Math] to the
    implementation (they are "implementation-approximated"), and
    [toLocaleString] to the host's default locale.  Both are parameters of
    the embedding. *)

Record MathObject : Type := {
  Math_sin : number -> number;
  Math_cos : number -> number;
  Math_tan : number -> number;
  Math_log10 : number -> number;
  Math_log : number -> number;
  Math_pow : number -> number -> number
}.

Record Locale : Type := {
  toLocaleString : number -> string
}.

(** The en-US locale with the default options of ECMA-402: grouping by
    thousands, at most three fraction digits, rounding half away from zero
    on the exact value. *)
Module EnUS.

Fixpoint group_from (s : string) (remaining : nat) (first : bool) : string :=
  match s with
  | EmptyString => ""
  | String c s' =>
      (if negb first && (remaining mod 3 =? 0)%nat then "," else "")
      ++ String c (group_from s' (remaining - 1) false)
  end.

Definition group3 (s : string) : string := group_from s (String.length s) true.

Fixpoint strip_zeros (rev_digits : list ascii) : list ascii :=
  match rev_digits with
  | c :: r => if Ascii.eqb c "0" then strip_zeros r else rev_digits
  | [] => []
  end.

Definition fraction (n : Z) : string :=
  let ds := digits (1000 + n) in
  let shown := list_ascii_of_string (substring 1 3 ds) in
  let kept := rev (strip_zeros (rev shown)) in
  match kept with
  | [] => ""
  | _ => "." ++ string_of_list_ascii kept
  end.

Definition infinity_sign : string :=
  String (ascii_of_nat 226) (String (ascii_of_nat 136)
    (String (ascii_of_nat 158) "")).

Definition format (x : number) : string :=
  match Prim2SF x with
  | S754_nan => "NaN"
  | S754_infinity s => (if s then "-" else "") ++ infinity_sign
  | S754_zero s => if s then "-0" else "0"
  | S754_finite sg mp e =>
      let n := qround (scale10 (frac_of (Zpos mp) e) (-3)) in
      (if sg then "-" else "") ++ group3 (digits (n / 1000))
      ++ fraction (n mod 1000)
  end.

Definition locale : Locale := {| toLocaleString := format |}.

End EnUS.

(** ** [CalculationStrategies] *)

Inductive Strategy : Type := basic | scientific.

Module CalculationStrategies.

(** The [for] loop of [factorial]: [None] when the fuel runs out before the
    test [i <= x] fails. *)
Fixpoint factorial_loop (fuel : nat) (i x result : number) : option number :=
  match fuel with
  | O => None
  | S fuel' =>
      if le i x then factorial_loop fuel' (i + 1)%float x (result * i)%float
      else Some result
  end.

Definition factorial_guard (x : number) : bool :=
  lt x 0%float || negb (isInteger x) || gt x 170%float.

(** Past the guard [x] is an integer of at most 170, so 170 rounds of the
    loop reach its exit ([factorial_loop_exits] below); the last branch is
    there to make the function total. *)
Definition factorial (x : number) : completion number :=
  if factorial_guard x then Throw "Invalid factorial input"
  else if strict_eq x 0%float || strict_eq x 1%float then Normal 1%float
  else
    match factorial_loop 170 2%float x 1%float with
    | Some result => Normal result
    | None => Throw "factorial: loop bound exceeded"
    end.

Section Operations.

Variable math : MathObject.

Definition radians (x : number) : number := (x * Math_PI / 180)%float.

(** The two tables, by key.  A key the table does not list is [undefined];
    the properties every object inherits are not keys the calculator uses
    and are left out. *)
Definition basic_operations (op : string)
  : option (number -> number -> completion number) :=
  if (op =? "+")%string then Some (fun a b => Normal (a + b)%float)
  else if (op =? "-")%string then Some (fun a b => Normal (a - b)%float)
  else if (op =? "*")%string then Some (fun a b => Normal (a * b)%float)
  else if (op =? "/")%string then
    Some (fun a b =>
            if strict_eq b 0%float then Throw "Division by zero"
            else Normal (a / b)%float)
  else if (op =? "%")%string then Some (fun a b => Normal (rem a b))
  else None.

Definition scientific_operations (func : string)
  : option (number -> completion number) :=
  if (func =? "sin")%string then
    Some (fun x => Normal (Math_sin math (radians x)))
  else if (func =? "cos")%string then
    Some (fun x => Normal (Math_cos math (radians x)))
  else if (func =? "tan")%string then
    Some (fun x => Normal (Math_tan math (radians x)))
  else if (func =? "log")%string then
    Some (fun x =>
            if le x 0%float then Throw "Invalid logarithm input"
            else Normal (Math_log10 math x))
  else if (func =? "ln")%string then
    Some (fun x =>
            if le x 0%float then Throw "Invalid natural logarithm input"
            else Normal (Math_log math x))
  else if (func =? "sqrt")%string then
    Some (fun x =>
            if lt x 0%float then Throw "Invalid square root input"
            else Normal (PrimFloat.sqrt x))
  else if (func =? "power")%string then
    Some (fun x => Normal (Math_pow math x 2%float))
  else if (func =? "factorial")%string then Some factorial
  else None.

(** [CalculationStrategies[strategy].operations[op]], called with two
    arguments: a scientific function ignores the second. *)
Definition operations (strategy : Strategy) (op : string)
  : option (number -> number -> completion number) :=
  match strategy with
  | basic => basic_operations op
  | scientific =>
      match scientific_operations op with
      | Some f => Some (fun a _ => f a)
      | None => None
      end
  end.

End Operations.

End CalculationStrategies.

(** ** The model: the private state of [CalculatorModel] *)

(** What [getState] returns and [setState] takes. *)
Record State : Type := {
  st_currentValue : string;
  st_previousValue : string;
  st_operator : option string;
  st_isWaitingForOperand : bool;
  st_history : string;
  st_memoryValue : number
}.

(** A [CalculationCommand]; its calculator is the model itself.
    [previousState] is [null] until [execute] has run. *)
Record CalculationCommand : Type := {
  operation : string;
  operand : string;
  previousState : option State
}.

(** A command is an object: [CommandHistory] keeps references to commands,
    and [CalculationCommand.execute] writes into the object it is called on,
    so that every reference to it sees the write.  An object is known by
    its address. *)
Definition address : Type := nat.

(** [CommandHistory], with the command objects its references point to:
    [objects] gives the fields of the object at an address. *)
Record CommandHistory : Type := {
  objects : address -> CalculationCommand;
  commands : list address;
  currentIndex : Z;
  maxHistory : Z
}.

(** An entry of the calculation log.  [id] is [Date.now()] and [timestamp]
    is [new Date().toISOString()]: the two reads of the clock in one call
    are taken as one instant, and both fields keep the reading. *)
Record HistoryItem : Type := {
  id : Z;
  expression : string;
  result : string;
  timestamp : Z
}.

Record Model : Type := {
  currentValue : string;
  previousValue : string;
  operator : option string;
  isWaitingForOperand : bool;
  history : string;
  memoryValue : number;
  calculationHistory : list HistoryItem;
  currentStrategy : Strategy;
  commandHistory : CommandHistory
}.

(** [new CommandHistory()], before any command object exists. *)
Definition new_CommandHistory : CommandHistory :=
  {| objects :=
       fun _ => {| operation := ""; operand := ""; previousState := None |};
     commands := []; currentIndex := -1; maxHistory := 50 |}.

(** The state at start-up; memory and log come from storage when it holds
    saved data, and are [0] and [[]] otherwise. *)
Definition initial (savedMemory : number) (savedHistory : list HistoryItem)
  : Model :=
  {| currentValue := "0"; previousValue := ""; operator := None;
     isWaitingForOperand := false; history := ""; memoryValue := savedMemory;
     calculationHistory := savedHistory; currentStrategy := basic;
     commandHistory := new_CommandHistory |}.

Definition fresh : Model := initial 0%float [].

Module CalculatorModel.

Definition setCurrentValue (value : string) (m : Model) : Model :=
  {| currentValue := value; previousValue := previousValue m;
     operator := operator m; isWaitingForOperand := isWaitingForOperand m;
     history := history m; memoryValue := memoryValue m;
     calculationHistory := calculationHistory m;
     currentStrategy := currentStrategy m;
     commandHistory := commandHistory m |}.

Definition setPreviousValue (value : string) (m : Model) : Model :=
  {| currentValue := currentValue m; previousValue := value;
     operator := operator m; isWaitingForOperand := isWaitingForOperand m;
     history := history m; memoryValue := memoryValue m;
     calculationHistory := calculationHistory m;
     currentStrategy := currentStrategy m;
     commandHistory := commandHistory m |}.

Definition setOperator (op : option string) (m : Model) : Model :=
  {| currentValue := currentValue m; previousValue := previousValue m;
     operator := op; isWaitingForOperand := isWaitingForOperand m;
     history := history m; memoryValue := memoryValue m;
     calculationHistory := calculationHistory m;
     currentStrategy := currentStrategy m;
     commandHistory := commandHistory m |}.

Definition setWaitingForOperand (waiting : bool) (m : Model) : Model :=
  {| currentValue := currentValue m; previousValue := previousValue m;
     operator := operator m; isWaitingForOperand := waiting;
     history := history m; memoryValue := memoryValue m;
     calculationHistory := calculationHistory m;
     currentStrategy := currentStrategy m;
     commandHistory := commandHistory m |}.

Definition setHistory (hist : string) (m : Model) : Model :=
  {| currentValue := currentValue m; previousValue := previousValue m;
     operator := operator m; isWaitingForOperand := isWaitingForOperand m;
     history := hist; memoryValue := memoryValue m;
     calculationHistory := calculationHistory m;
     currentStrategy := currentStrategy m;
     commandHistory := commandHistory m |}.

Definition setMemoryValue (value : number) (m : Model) : Model :=
  {| currentValue := currentValue m; previousValue := previousValue m;
     operator := operator m; isWaitingForOperand := isWaitingForOperand m;
     history := history m; memoryValue := value;
     calculationHistory := calculationHistory m;
     currentStrategy := currentStrategy m;
     commandHistory := commandHistory m |}.

Definition setCalculationHistory (items : list HistoryItem) (m : Model)
  : Model :=
  {| currentValue := currentValue m; previousValue := previousValue m;
     operator := operator m; isWaitingForOperand := isWaitingForOperand m;
     history := history m; memoryValue := memoryValue m;
     calculationHistory := items;
     currentStrategy := currentStrategy m;
     commandHistory := commandHistory m |}.

Definition setCurrentStrategy (strategy : Strategy) (m : Model) : Model :=
  {| currentValue := currentValue m; previousValue := previousValue m;
     operator := operator m; isWaitingForOperand := isWaitingForOperand m;
     history := history m; memoryValue := memoryValue m;
     calculationHistory := calculationHistory m;
     currentStrategy := strategy;
     commandHistory := commandHistory m |}.

Definition setCommandHistory (h : CommandHistory) (m : Model) : Model :=
  {| currentValue := currentValue m; previousValue := previousValue m;
     operator := operator m; isWaitingForOperand := isWaitingForOperand m;
     history := history m; memoryValue := memoryValue m;
     calculationHistory := calculationHistory m;
     currentStrategy := currentStrategy m;
     commandHistory := h |}.

Definition getState (m : Model) : State :=
  {| st_currentValue := currentValue m;
     st_previousValue := previousValue m;
     st_operator := operator m;
     st_isWaitingForOperand := isWaitingForOperand m;
     st_history := history m;
     st_memoryValue := memoryValue m |}.

Definition setState (state : State) (m : Model) : Model :=
  {| currentValue := st_currentValue state;
     previousValue := st_previousValue state;
     operator := st_operator state;
     isWaitingForOperand := st_isWaitingForOperand state;
     history := st_history state;
     memoryValue := st_memoryValue state;
     calculationHistory := calculationHistory m;
     currentStrategy := currentStrategy m;
     commandHistory := commandHistory m |}.

(** [setStrategy]: the keys of [CalculationStrategies] are the two names. *)
Definition setStrategy (strategy : string) (m : Model) : completion Model :=
  if (strategy =? "basic")%string then Normal (setCurrentStrategy basic m)
  else if (strategy =? "scientific")%string then
    Normal (setCurrentStrategy scientific m)
  else Throw ("Unknown strategy: " ++ strategy).

Section Host.

Variable math : MathObject.
Variable locale : Locale.

Definition formatNumber (n : number) : completion string :=
  if isNaN n || negb (isFinite n) then Throw "Invalid number"
  else
    let numStr := toString n in
    if (12 <? String.length numStr)%nat then Normal (toExponential 5 n)
    else if ge (PrimFloat.abs n) 1000%float && negb (includes_char "." numStr)
    then Normal (toLocaleString locale n)
    else Normal numStr.

(** [calculate(op, a, b)] under the current strategy. *)
Definition calculate (op : string) (a b : number) (m : Model)
  : completion number :=
  match CalculationStrategies.operations math (currentStrategy m) op with
  | None => Throw ("Unknown operation: " ++ op)
  | Some f => f a b
  end.

Definition scientificCalculate (func : string) (value : number)
  : completion number :=
  match CalculationStrategies.scientific_operations math func with
  | None => Throw ("Unknown function: " ++ func)
  | Some f => f value
  end.

End Host.

(** The memory operations.  Their argument is read by [parseFloat], which
    first converts it to a string. *)
Definition memoryStore (value : string) (m : Model) : Model :=
  setMemoryValue (or_zero (parseFloat value)) m.

Definition memoryRecall (m : Model) : string := toString (memoryValue m).

Definition memoryAdd (value : string) (m : Model) : Model :=
  setMemoryValue (memoryValue m + or_zero (parseFloat value))%float m.

Definition memorySubtract (value : string) (m : Model) : Model :=
  setMemoryValue (memoryValue m - or_zero (parseFloat value))%float m.

Definition memoryClear (m : Model) : Model := setMemoryValue 0%float m.

(** [addToHistory], behind [addCalculationToHistory]; [now] is the clock. *)
Definition addToHistory (now : Z) (expression result : string) (m : Model)
  : Model :=
  let historyItem :=
    {| id := now; expression := expression; result := result;
       timestamp := now |} in
  let unshifted := historyItem :: calculationHistory m in
  if (100 <? List.length unshifted)%nat
  then setCalculationHistory (firstn 100 unshifted) m
  else setCalculationHistory unshifted m.

Definition clearHistory (m : Model) : Model := setCalculationHistory [] m.

Definition reset (m : Model) : Model :=
  {| currentValue := "0"; previousValue := ""; operator := None;
     isWaitingForOperand := false; history := "";
     memoryValue := memoryValue m;
     calculationHistory := calculationHistory m;
     currentStrategy := currentStrategy m;
     commandHistory := commandHistory m |}.

End CalculatorModel.

(** ** The undo stack: [CalculationCommand] and [CommandHistory] *)

Module Commands.

Import CalculatorModel.

Definition setCommands (cs : list address) (h : CommandHistory)
  : CommandHistory :=
  {| objects := objects h; commands := cs; currentIndex := currentIndex h;
     maxHistory := maxHistory h |}.

Definition setCurrentIndex (i : Z) (h : CommandHistory) : CommandHistory :=
  {| objects := objects h; commands := commands h; currentIndex := i;
     maxHistory := maxHistory h |}.

(** A write to the object at [a]. *)
Definition setObject (a : address) (c : CalculationCommand)
  (h : CommandHistory) : CommandHistory :=
  {| objects := fun a' => if (a' =? a)%nat then c else objects h a';
     commands := commands h; currentIndex := currentIndex h;
     maxHistory := maxHistory h |}.

(** [new CalculationCommand(calculator, operation, operand)]: the object is
    made at [a], an address the runtime picks among those of no other
    object. *)
Definition new_CalculationCommand (a : address) (operation operand : string)
  (m : Model) : Model :=
  setCommandHistory
    (setObject a
       {| operation := operation; operand := operand; previousState := None |}
       (commandHistory m)) m.

(** [cs.slice(0, k)]: a negative [k] counts from the end. *)
Definition slice0 (k : Z) (cs : list address) : list address :=
  if 0 <=? k then firstn (Z.to_nat k) cs
  else firstn (Z.to_nat (Z.of_nat (List.length cs) + k)) cs.

(** [CalculationCommand.undo], on the object at [a]. *)
Definition command_undo (a : address) (m : Model) : Model :=
  match previousState (objects (commandHistory m) a) with
  | Some state => setState state m
  | None => m
  end.

(** [CommandHistory.undo]: the model is the one the commands act on.  Reading
    past the end of [commands] yields [undefined], whose [undo] is a
    TypeError. *)
Definition undo (m : Model) : Model * completion bool :=
  let h := commandHistory m in
  if 0 <=? currentIndex h then
    match nth_error (commands h) (Z.to_nat (currentIndex h)) with
    | Some command =>
        let m' := command_undo command m in
        (setCommandHistory (setCurrentIndex (currentIndex h - 1) h) m',
         Normal true)
    | None => (m, Throw "Cannot read properties of undefined (reading 'undo')")
    end
  else (m, Normal false).

Definition canUndo (m : Model) : bool := 0 <=? currentIndex (commandHistory m).

Section Execute.

(** [CalculationCommand.execute] calls [calculator.performOperation], which
    [CalculatorModel] does not define; it is a parameter here. *)
Variable performOperation :
  string -> string -> Model -> Model * completion unit.

(** [CalculationCommand.execute], on the object at [a]: the snapshot is
    written into the object, then the operation runs. *)
Definition command_execute (a : address) (m : Model)
  : Model * completion unit :=
  let c := objects (commandHistory m) a in
  let snapshot :=
    {| operation := operation c; operand := operand c;
       previousState := Some (getState m) |} in
  performOperation (operation c) (operand c)
    (setCommandHistory (setObject a snapshot (commandHistory m)) m).

(** [CommandHistory.execute(command)]: the reference is what is pushed. *)
Definition execute (command : address) (m : Model)
  : Model * completion unit :=
  let h := commandHistory m in
  let h1 := setCommands (slice0 (currentIndex h + 1) (commands h)) h in
  let m1 := setCommandHistory h1 m in
  match command_execute command m1 with
  | (m2, Throw msg) => (m2, Throw msg)
  | (m2, Normal _) =>
      let h2 := commandHistory m2 in
      let pushed := (commands h2 ++ [command])%list in
      let index := currentIndex h2 + 1 in
      let h3 :=
        if maxHistory h2 <? Z.of_nat (List.length pushed)
        then {| objects := objects h2; commands := tl pushed;
                currentIndex := index - 1; maxHistory := maxHistory h2 |}
        else {| objects := objects h2; commands := pushed;
                currentIndex := index; maxHistory := maxHistory h2 |} in
      (setCommandHistory h3 m2, Normal tt)
  end.

End Execute.

End Commands.

(** ** The controller: [CalculatorController] *)

(** The notices a controller operation sends to the view. *)
Inductive Notice : Type :=
| clearError
| showError (message : string)
| showToast (message type : string)
| announceToScreenReader (message : string).

Module CalculatorController.

Import CalculatorModel.

(** [operator && ...]: [null] and the empty string are falsy. *)
Definition truthy (op : option string) : bool :=
  match op with
  | Some s => negb (s =? "")%string
  | None => false
  end.

Definition operator_text (op : option string) : string :=
  match op with
  | Some s => s
  | None => "null"
  end.

(** [inputNumber(num)]. *)
Definition inputNumber (num : string) (m : Model) : Model * list Notice :=
  if isWaitingForOperand m then
    (setWaitingForOperand false (setCurrentValue num m), [clearError])
  else
    let current := currentValue m in
    let newValue := if (current =? "0")%string then num else current ++ num in
    if (15 <? String.length newValue)%nat then
      (m, [clearError; showToast "Maximum digits reached" "error"])
    else (setCurrentValue newValue m, [clearError]).

(** [deleteLast()]. *)
Definition deleteLast (m : Model) : Model * list Notice :=
  let current := currentValue m in
  if (1 <? String.length current)%nat && negb (current =? "0")%string
  then (setCurrentValue (drop_last current) m, [])
  else (setCurrentValue "0" m, []).

(** [inputDecimal()]. *)
Definition inputDecimal (m : Model) : Model * list Notice :=
  if isWaitingForOperand m then
    (setWaitingForOperand false (setCurrentValue "0." m), [])
  else if negb (includes_char "." (currentValue m)) then
    (setCurrentValue (currentValue m ++ ".") m, [])
  else (m, []).

(** [loadFromHistory(value)]. *)
Definition loadFromHistory (value : string) (m : Model) : Model * list Notice :=
  (setWaitingForOperand true (setCurrentValue value m),
   [showToast "Loaded from history" "success"]).

(** [CalculatorController.undo()]. *)
Definition undo (m : Model) : Model * completion (list Notice) :=
  match Commands.undo m with
  | (m', Normal true) => (m', Normal [showToast "Undone" "success"])
  | (m', Normal false) => (m', Normal [showToast "Nothing to undo" "error"])
  | (m', Throw msg) => (m', Throw msg)
  end.

(** The memory buttons ([handleMemoryClick]); [current] is read first. *)
Definition memoryClearClick (m : Model) : Model * list Notice :=
  (memoryClear m, [showToast "Memory cleared" "success"]).

Definition memoryRecallClick (m : Model) : Model * list Notice :=
  (setWaitingForOperand true (setCurrentValue (memoryRecall m) m),
   [showToast "Memory recalled" "success"]).

Definition memoryAddClick (m : Model) : Model * list Notice :=
  (memoryAdd (currentValue m) m, [showToast "Added to memory" "success"]).

Definition memorySubtractClick (m : Model) : Model * list Notice :=
  (memorySubtract (currentValue m) m,
   [showToast "Subtracted from memory" "success"]).

(** The clear key: [CalculatorModel.reset()], whose ['reset'] event the
    controller answers with a toast. *)
Definition clear (m : Model) : Model * list Notice :=
  (reset m, [showToast "Calculator reset" "success"]).

(** [handleModeToggle]: any mode but ["scientific"] selects the basic
    strategy. *)
Definition handleModeToggle (mode : string) (m : Model) : Model * list Notice :=
  let strategy := if (mode =? "scientific")%string then scientific else basic in
  (setCurrentStrategy strategy m,
   [showToast (mode ++ " mode activated") "success"]).

Definition handleClearHistory (m : Model) : Model * list Notice :=
  (clearHistory m, [showToast "History cleared" "success"]).

Section Host.

Variable math : MathObject.
Variable locale : Locale.

(** The controller's [formatNumber]: an invalid number is shown as an error
    and replaced by ["0"]. *)
Definition formatNumber (n : number) : string * list Notice :=
  match CalculatorModel.formatNumber locale n with
  | Normal s => (s, [])
  | Throw _ => ("0", [showError "Invalid number"])
  end.

(** [inputOperator(nextOperator)]. *)
Definition inputOperator (nextOperator : string) (m : Model)
  : Model * list Notice :=
  let current := parseFloat (currentValue m) in
  let previous := previousValue m in
  if isNaN current then (m, [showError "Invalid input"])
  else
    let finish (m1 : Model) (notices : list Notice) :=
      let m2 :=
        setOperator (Some nextOperator) (setWaitingForOperand true m1) in
      (setHistory (previousValue m2 ++ " " ++ nextOperator) m2, notices) in
    if (previous =? "")%string then
      finish (setPreviousValue (toString current) m) []
    else if truthy (operator m) && negb (isWaitingForOperand m) then
      match calculate math (operator_text (operator m))
                      (parseFloat previous) current m with
      | Throw msg => (m, [showError msg])
      | Normal result =>
          let '(formatted, notices) := formatNumber result in
          finish (setPreviousValue (toString result)
                    (setCurrentValue formatted m)) notices
      end
    else finish m [].

(** The equals key: [calculate()]. *)
Definition equals (now : Z) (m : Model) : Model * list Notice :=
  let current := parseFloat (currentValue m) in
  let previous := previousValue m in
  match operator m with
  | None => (m, [])
  | Some op =>
      if (previous =? "")%string || isNaN current then (m, [])
      else
        match calculate math op (parseFloat previous) current m with
        | Throw msg => (m, [showError msg])
        | Normal result =>
            let '(formatted, notices) := formatNumber result in
            let expression :=
              previous ++ " " ++ op ++ " " ++ toString current in
            let m1 := addToHistory now expression formatted m in
            let m2 := setCurrentValue formatted m1 in
            let m3 := setPreviousValue "" m2 in
            let m4 := setOperator None m3 in
            let m5 := setWaitingForOperand true m4 in
            (setHistory (expression ++ " =") m5,
             (notices
              ++ [announceToScreenReader ("Result: " ++ formatted)])%list)
        end
  end.

(** [performPercentage()]. *)
Definition performPercentage (m : Model) : Model * list Notice :=
  let current := parseFloat (currentValue m) in
  if isNaN current then (m, [])
  else
    let '(formatted, notices) := formatNumber (current / 100)%float in
    (setWaitingForOperand true (setCurrentValue formatted m),
     (notices ++ [showToast "Percentage calculated" "success"])%list).

(** [performScientificFunction(func)].  The history expression is built
    after [setCurrentValue(formatted)], from [getCurrentValue()]. *)
Definition performScientificFunction (now : Z) (func : string) (m : Model)
  : Model * list Notice :=
  let constant := (func =? "pi")%string || (func =? "e")%string in
  let computed : completion number + unit :=
    if (func =? "pi")%string then inl (Normal Math_PI)
    else if (func =? "e")%string then inl (Normal Math_E)
    else
      let current := parseFloat (currentValue m) in
      if isNaN current then inr tt
      else inl (scientificCalculate math func current) in
  match computed with
  | inr _ => (m, [clearError; showError "Invalid input for function"])
  | inl (Throw msg) => (m, [clearError; showError msg])
  | inl (Normal result) =>
      let '(formatted, notices) := formatNumber result in
      let m1 := setCurrentValue formatted m in
      let m2 := setWaitingForOperand true m1 in
      let expression :=
        if constant then func else func ++ "(" ++ currentValue m2 ++ ")" in
      (addToHistory now expression formatted m2,
       (clearError :: notices
        ++ [announceToScreenReader (func ++ " result: " ++ formatted)])%list)
  end.

End Host.

End CalculatorController.

(** ** The input surface

    What [handleKeypadClick], [handleKeyboard], [handleScientificClick],
    [handleMemoryClick] and the other handlers dispatch.  An event that reads
    the clock carries the reading. *)

Inductive Event : Type :=
| Digit (num : string)
| Operator (op : string)
| DecimalPoint
| Equals (now : Z)
| Clear
| Delete
| Undo
| Percentage
| Function (func : string) (now : Z)
| MemoryClear
| MemoryRecall
| MemoryAdd
| MemorySubtract
| Mode (mode : string)
| ClearHistory
| HistoryClick (item : nat).

Section Engine.

Variable math : MathObject.
Variable locale : Locale.

Import CalculatorController.

Definition handle (e : Event) (m : Model) : Model * list Notice :=
  match e with
  | Digit num => inputNumber num m
  | Operator op => inputOperator math locale op m
  | DecimalPoint => inputDecimal m
  | Equals now => equals math locale now m
  | Clear => clear m
  | Delete => deleteLast m
  | Undo =>
      match undo m with
      | (m', Normal notices) => (m', notices)
      | (m', Throw _) => (m', [])
      end
  | Percentage => performPercentage locale m
  | Function func now => performScientificFunction math locale now func m
  | MemoryClear => memoryClearClick m
  | MemoryRecall => memoryRecallClick m
  | MemoryAdd => memoryAddClick m
  | MemorySubtract => memorySubtractClick m
  | Mode mode => handleModeToggle mode m
  | ClearHistory => handleClearHistory m
  | HistoryClick item =>
      match nth_error (calculationHistory m) item with
      | Some entry => loadFromHistory (result entry) m
      | None => (m, [])
      end
  end.

(** The model after a sequence of events, oldest first. *)
Definition run (events : list Event) (m : Model) : Model :=
  fold_left (fun m e => fst (handle e m)) events m.

(** The states the engine can be in: a start-up state, then any events. *)
Inductive reachable : Model -> Prop :=
| reachable_initial (savedMemory : number) (savedHistory : list HistoryItem) :
    reachable (initial savedMemory savedHistory)
| reachable_handle (e : Event) (m : Model) :
    reachable m -> reachable (fst (handle e m)).

End Engine.

(** ** The event emitter: [EventEmitter] *)

Module EventEmitter.

(** A callback is a function; [off] compares functions by identity, so a
    callback is known here by a number that stands for that identity.  Its
    effects are those of the listener, and belong to whoever registered
    it. *)
Definition callback : Type := nat.

(** [this.events]: the arrays stored under the event names; [None] where the
    object has no property of its own. *)
Definition events : Type := string -> option (list callback).

Definition new_EventEmitter : events := fun _ => None.

(** The properties a plain object inherits from [Object.prototype].  Reading
    one of them from [this.events] yields a function or an object: truthy,
    and without [push], [filter] or [forEach]. *)
Definition inherited (name : string) : bool :=
  existsb (String.eqb name)
    ["constructor"; "hasOwnProperty"; "isPrototypeOf";
     "propertyIsEnumerable"; "toLocaleString"; "toString"; "valueOf";
     "__proto__"; "__defineGetter__"; "__defineSetter__";
     "__lookupGetter__"; "__lookupSetter__"].

Definition set (name : string) (l : list callback) (ev : events) : events :=
  fun name' => if (name' =? name)%string then Some l else ev name'.

(** The message of the TypeError, in V8's wording. *)
Definition not_a_function (method : string) : string :=
  "this.events[eventName]." ++ method ++ " is not a function".

(** [on(eventName, callback)]. *)
Definition on (eventName : string) (cb : callback) (ev : events)
  : completion events :=
  match ev eventName with
  | Some l => Normal (set eventName (l ++ [cb])%list ev)
  | None =>
      if inherited eventName then Throw (not_a_function "push")
      else Normal (set eventName [cb] ev)
  end.

(** [off(eventName, callback)]. *)
Definition off (eventName : string) (cb : callback) (ev : events)
  : completion events :=
  match ev eventName with
  | Some l =>
      Normal (set eventName (filter (fun c => negb (c =? cb)%nat) l) ev)
  | None =>
      if inherited eventName then Throw (not_a_function "filter")
      else Normal ev
  end.

(** [emit(eventName, data)]: the callbacks called with [data], in the order
    of the calls, when each of them returns and leaves the emitter alone. *)
Definition emit (eventName : string) (ev : events)
  : completion (list callback) :=
  match ev eventName with
  | Some l => Normal l
  | None =>
      if inherited eventName then Throw (not_a_function "forEach")
      else Normal []
  end.

End EventEmitter.

(** ** The keyboard *)




(** The object a function is called on.  [bindEvents] registers
    [controller.handleKeyboard] itself as the listener of [keydown], neither
    bound nor wrapped in a function, so the listener runs with [document] as
    [this]; [handleKeypadClick] is called as a method of the controller. *)
Inductive Receiver : Type := controller | document.

(** [this.name()] inside a function of the controller: the method when
    [this] is the controller, and a TypeError (in V8's wording) when it is
    the document, which has no such property. *)
Definition method_call (this : Receiver) (name : string) (e : Event)
  : completion (option Event) :=
  match this with
  | controller => Normal (Some e)
  | document => Throw ("this." ++ name ++ " is not a function")
  end.

(** What [handleKeyboard] dispatches for [e.key] and [e.ctrlKey], if
    anything, when it runs with [this].  The digit test compares strings,
    which JavaScript orders by code unit; against "0" and "9" the order of
    bytes decides the same. *)
Definition handleKeyboard (this : Receiver) (now : Z) (key : string)
  (ctrlKey : bool) : completion (option Event) :=
  if ("0" <=? key)%string && (key <=? "9")%string then
    Normal (Some (Digit key))
  else if existsb (String.eqb key) ["+"; "-"; "*"; "/"; "%"] then
    Normal (Some (Operator key))
  else if (key =? "Enter")%string || (key =? "=")%string then
    Normal (Some (Equals now))
  else if (key =? "Escape")%string then Normal (Some Clear)
  else if (key =? "Backspace")%string then method_call this "deleteLast" Delete
  else if (key =? ".")%string then
    method_call this "inputDecimal" DecimalPoint
  else if ctrlKey && (key =? "z")%string then method_call this "undo" Undo
  else Normal None.

(** The listener of [keydown] as [bindEvents] registers it. *)
Definition keydown (now : Z) (key : string) (ctrlKey : bool)
  : completion (option Event) :=
  handleKeyboard document now key ctrlKey.

(** [CalculatorModel.validateInput] on a string: the anchored class
    [[0-9+\-*/.%()=]] accepts one character. *)
Definition validateInput (input : string) : bool :=
  match input with
  | String c EmptyString => is_digit c || includes_char c "+-*/.%()="
  | _ => false
  end.

(** * Properties *)

(** Closed goals are settled by running the code. *)
Ltac run_code := vm_compute; reflexivity.

(** ** The runtime fragment on known values *)

Example toString_values :
  map toString
    [8; -5; 1234; 0.5; 1 / 10 + 2 / 10; 1 / 3; 1e21; 1.5e21;
     0x1.ac53a7e04bcdap+66; 1 / 10000000; 1 / 1000000; Math_PI;
     -0; nan; infinity]%float
  = ["8"; "-5"; "1234"; "0.5"; "0.30000000000000004"; "0.3333333333333333";
     "1e+21"; "1.5e+21"; "123456789012345680000"; "1e-7"; "0.000001";
     "3.141592653589793"; "0"; "NaN"; "Infinity"].
Proof. run_code. Qed.

Example toExponential_values :
  map (toExponential 5)
    [Math_PI; 1 / 3; 0; 1e21; 9999995; -1234.5; 123456789012345]%float
  = ["3.14159e+0"; "3.33333e-1"; "0.00000e+0"; "1.00000e+21"; "1.00000e+7";
     "-1.23450e+3"; "1.23457e+14"].
Proof. run_code. Qed.

Example parseFloat_values :
  map parseFloat
    ["5"; "0.1"; "1,234"; "3.33333e-1"; " -12.5e3xyz"; "5."; ".5"; "1e";
     "-0"; "00012"; "1e400"; "1e-400"; "Infinity"; "0x10"]
  = [5; 1 / 10; 1; 333333 / 1000000; -12500; 5; 0.5; 1; -0; 12; infinity; 0;
     infinity; 0]%float.
Proof. run_code. Qed.

Example parseFloat_not_numeric :
  forallb (fun s => isNaN (parseFloat s)) [""; "."; "-"; "abc"; "e5"; "NaN"]
  = true.
Proof. run_code. Qed.

(** [parseFloat] reads back what [toString] prints. *)
Example parseFloat_toString :
  forallb (fun x => Leibniz.eqb (parseFloat (toString x)) x)
    [1 / 10; 1 / 3; 2 / 3; 1e21; Math_PI; Math_E; 1 / 10 + 2 / 10;
     0x1p-1074; 0x1.fffffffffffffp+1023; 0x1p-1022; 0x1.4ab7864418635p+1019;
     9007199254740992; -0x1.edd2f1a9fbe77p+6]%float
  = true.
Proof. run_code. Qed.

Example rem_values :
  map (fun ab => rem (fst ab) (snd ab))
    [(5, 3); (-5, 3); (5, -3); (5.5, 2); (1e21, 7); (2, infinity)]%float
  = [2; -2; 2; 1.5; 6; 2]%float
  /\ forallb (fun ab => isNaN (rem (fst ab) (snd ab)))
       [(5, 0); (infinity, 2); (nan, 1)]%float
     = true.
Proof. split; run_code. Qed.

Example EnUS_values :
  map EnUS.format [1234; 999999999999; -1234567; 1000; 999; 0.5; 1e21]%float
  = ["1,234"; "999,999,999,999"; "-1,234,567"; "1,000"; "999"; "0.5";
     "1,000,000,000,000,000,000,000"].
Proof. run_code. Qed.

Import CalculatorModel.

(** ** Reset *)

(** C10. [reset] writes the five operand-entry fields ([currentValue] becomes
    "0", [previousValue] and [history] the empty string, [operator] null,
    [isWaitingForOperand] false) and leaves the memory value and the
    calculation history as they were, from any state. *)
Theorem reset_frame (m : Model) :
  currentValue (reset m) = "0"
  /\ previousValue (reset m) = ""
  /\ operator (reset m) = None
  /\ isWaitingForOperand (reset m) = false
  /\ history (reset m) = ""
  /\ memoryValue (reset m) = memoryValue m
  /\ calculationHistory (reset m) = calculationHistory m.
Proof. repeat split. Qed.

(** The clear key does nothing else to the model, and the strategy and the
    undo stack are kept as well. *)
Lemma clear_is_reset (m : Model) :
  fst (CalculatorController.clear m) = reset m
  /\ currentStrategy (reset m) = currentStrategy m
  /\ commandHistory (reset m) = commandHistory m.
Proof. repeat split. Qed.

(** ** The calculation log *)

(** A request to log: the clock reading, the expression and the result. *)
Definition entry : Type := Z * string * string.

Definition item_of (e : entry) : HistoryItem :=
  let '(now, expression, result) := e in
  {| id := now; expression := expression; result := result;
     timestamp := now |}.

Definition append (m : Model) (e : entry) : Model :=
  let '(now, expression, result) := e in addToHistory now expression result m.

(** The log after the requests [entries], oldest first. *)
Definition appends (entries : list entry) (m : Model) : Model :=
  fold_left append entries m.

Lemma append_log (m : Model) (e : entry) :
  calculationHistory (append m e)
  = firstn 100 (item_of e :: calculationHistory m).
Proof.
  destruct e as [[now ex] res]. unfold append, addToHistory. cbn [item_of].
  set (l := _ :: calculationHistory m).
  destruct (Nat.ltb_spec 100 (List.length l));
    cbn [calculationHistory setCalculationHistory].
  - reflexivity.
  - symmetry. apply firstn_all2. assumption.
Qed.

Lemma append_frame (m : Model) (e : entry) :
  getState (append m e) = getState m
  /\ currentStrategy (append m e) = currentStrategy m
  /\ commandHistory (append m e) = commandHistory m.
Proof.
  destruct e as [[now ex] res]. unfold append, addToHistory.
  destruct (_ <? _)%nat; repeat split.
Qed.

Lemma firstn_app_firstn {A : Type} (n : nat) (p l : list A) :
  firstn n (p ++ firstn n l) = firstn n (p ++ l).
Proof.
  rewrite !firstn_app, firstn_firstn.
  f_equal. f_equal. lia.
Qed.

Lemma appends_log (entries : list entry) (m : Model) :
  (List.length (calculationHistory m) <= 100)%nat ->
  calculationHistory (appends entries m)
  = firstn 100 (rev (map item_of entries) ++ calculationHistory m).
Proof.
  unfold appends. revert m.
  induction entries as [|e entries IH]; intros m Hm.
  - cbn [fold_left map rev app]. symmetry. apply firstn_all2. assumption.
  - cbn [fold_left map rev]. rewrite IH.
    + rewrite append_log, firstn_app_firstn, <- app_assoc. reflexivity.
    + rewrite append_log, length_firstn. lia.
Qed.

(** C5. [addToHistory] puts the new entry, stamped with the clock reading,
    at the front of the log and keeps the first 100; so the log never holds
    more than 100 entries after an append, the log built from an empty one is
    the 100 latest requests, newest first, and after 101 requests it is the
    last 100 of them: the first request is gone. *)
Theorem calculation_log_capped :
  (forall (now : Z) (expression result : string) (m : Model),
      calculationHistory (addToHistory now expression result m)
      = firstn 100
          ({| id := now; expression := expression; result := result;
              timestamp := now |} :: calculationHistory m)
      /\ (List.length
            (calculationHistory (addToHistory now expression result m))
          <= 100)%nat)
  /\ (forall (entries : list entry) (m : Model),
         calculationHistory m = [] ->
         calculationHistory (appends entries m)
         = firstn 100 (rev (map item_of entries)))
  /\ (forall (oldest : entry) (later : list entry) (m : Model),
         calculationHistory m = [] ->
         List.length later = 100%nat ->
         calculationHistory (appends (oldest :: later) m)
         = rev (map item_of later)).
Proof.
  split; [|split].
  - intros now ex res m.
    pose proof (append_log m (now, ex, res)) as H. cbn [append item_of] in H.
    split; [exact H|]. rewrite H, length_firstn. lia.
  - intros entries m Hm. rewrite appends_log by (rewrite Hm; cbn; lia).
    rewrite Hm, app_nil_r. reflexivity.
  - intros oldest later m Hm Hlen.
    rewrite appends_log by (rewrite Hm; cbn; lia).
    rewrite Hm, app_nil_r. cbn [map rev].
    rewrite firstn_app.
    replace (100 - List.length (rev (map item_of later)))%nat with 0%nat
      by (rewrite length_rev, length_map; lia).
    rewrite firstn_O, app_nil_r.
    apply firstn_all2. rewrite length_rev, length_map. lia.
Qed.

(** 101 requests at clock readings 0 to 100: the entry of reading 0 is
    evicted and the entry of reading 100 is at the front. *)
Definition hundred_and_one : list entry :=
  map (fun n => (Z.of_nat n, "1 + 1", "2")) (seq 0 101).

Lemma calculation_log_capped_witness :
  calculationHistory fresh = []
  /\ List.length (tl hundred_and_one) = 100%nat
  /\ calculationHistory (appends hundred_and_one fresh)
     = rev (map item_of (tl hundred_and_one))
  /\ option_map id
       (hd_error (calculationHistory (appends hundred_and_one fresh)))
     = Some 100.
Proof.
  split; [reflexivity|]. split; [reflexivity|]. split.
  - exact (proj2 (proj2 calculation_log_capped)
             (0, "1 + 1", "2") (tl hundred_and_one) fresh
             eq_refl eq_refl).
  - vm_compute. reflexivity.
Defined.

(** ** Digit entry *)

Import CalculatorController.

(** C8. While an operand is being entered, a digit whose append would make
    [currentValue] longer than 15 characters is declined: [inputNumber]
    returns the model it was given, with the "Maximum digits reached" toast
    and no exception.  A digit that fits is appended (it replaces a lone
    "0"). *)
Theorem inputNumber_length_limit (num : string) (m : Model) :
  String.length num = 1%nat ->
  isWaitingForOperand m = false ->
  ((15 < String.length (currentValue m ++ num))%nat ->
   inputNumber num m
   = (m, [clearError; showToast "Maximum digits reached" "error"]))
  /\ ((String.length (currentValue m ++ num) <= 15)%nat ->
      inputNumber num m
      = (setCurrentValue
           (if (currentValue m =? "0")%string then num
            else currentValue m ++ num) m,
         [clearError])).
Proof.
  intros Hnum Hwait. unfold inputNumber. rewrite Hwait.
  destruct (String.eqb_spec (currentValue m) "0") as [H0|H0].
  - rewrite H0, Hnum. cbn. split; [lia | reflexivity].
  - split; intros Hlen.
    + apply Nat.ltb_lt in Hlen. rewrite Hlen. reflexivity.
    + apply Nat.ltb_ge in Hlen. rewrite Hlen. reflexivity.
Qed.

Definition fifteen_digits : Model := setCurrentValue "123456789012345" fresh.

Lemma inputNumber_length_limit_witness :
  inputNumber "7" fifteen_digits
  = (fifteen_digits, [clearError; showToast "Maximum digits reached" "error"])
  /\ inputNumber "7" (setCurrentValue "12" fresh)
     = (setCurrentValue "127" fresh, [clearError]).
Proof.
  split.
  - apply (proj1 (inputNumber_length_limit "7" fifteen_digits
                    eq_refl eq_refl)).
    cbn. lia.
  - apply (proj2 (inputNumber_length_limit "7" (setCurrentValue "12" fresh)
                    eq_refl eq_refl)).
    cbn. lia.
Defined.

(** After an operator or a result the digit starts a fresh operand and no
    length is checked. *)
Lemma inputNumber_fresh_operand (num : string) (m : Model) :
  isWaitingForOperand m = true ->
  inputNumber num m
  = (setWaitingForOperand false (setCurrentValue num m), [clearError]).
Proof. intros H. unfold inputNumber. now rewrite H. Qed.

(** ** Division by zero *)

(** A number that is [=== 0] is not NaN. *)
Lemma strict_eq_zero_not_NaN (x : number) :
  strict_eq x 0%float = true -> isNaN x = false.
Proof.
  unfold strict_eq, isNaN, is_nan. rewrite !eqb_spec.
  change (Prim2SF 0%float) with (S754_zero false).
  destruct (Prim2SF x) as [s| s| |s mx e]; cbn; try discriminate;
    try reflexivity.
  all: destruct s; discriminate.
Qed.

Section DivisionByZero.

Variable math : MathObject.
Variable locale : Locale.

Lemma divide_by_zero (a b : number) :
  strict_eq b 0%float = true ->
  exists divide,
    CalculationStrategies.basic_operations "/" = Some divide
    /\ divide a b = Throw "Division by zero".
Proof.
  intros Hb.
  exists (fun a b =>
            if strict_eq b 0%float then Throw "Division by zero"
            else Normal (a / b)%float).
  split; [reflexivity|]. cbn beta. now rewrite Hb.
Qed.

(** The message [calculate] throws on a zero divisor: in the scientific
    strategy the table has no "/" at all. *)
Definition zero_divisor_message (strategy : Strategy) : string :=
  match strategy with
  | basic => "Division by zero"
  | scientific => "Unknown operation: /"
  end.

Lemma calculate_divide_by_zero (a b : number) (m : Model) :
  strict_eq b 0%float = true ->
  calculate math "/" a b m = Throw (zero_divisor_message (currentStrategy m)).
Proof.
  intros Hb. unfold calculate.
  destruct (currentStrategy m); [|reflexivity].
  cbn -[strict_eq]. now rewrite Hb.
Qed.

(** C2. Division by a divisor that is [=== 0] throws "Division by zero"
    whatever the dividend.  At the two entry points that evaluate a pending
    division, the equals key and an operator key pressed after the second
    operand, the exception is caught: the operation returns the model it was
    given, so no field has changed and the log has no new entry, and sends
    the error to the view. *)
Theorem division_by_zero_leaves_state :
  (forall a b : number,
      strict_eq b 0%float = true ->
      exists divide,
        CalculationStrategies.basic_operations "/" = Some divide
        /\ divide a b = Throw "Division by zero")
  /\ (forall (now : Z) (m : Model),
         operator m = Some "/" ->
         (previousValue m =? "")%string = false ->
         strict_eq (parseFloat (currentValue m)) 0%float = true ->
         equals math locale now m
         = (m, [showError (zero_divisor_message (currentStrategy m))]))
  /\ (forall (nextOperator : string) (m : Model),
         operator m = Some "/" ->
         (previousValue m =? "")%string = false ->
         isWaitingForOperand m = false ->
         strict_eq (parseFloat (currentValue m)) 0%float = true ->
         inputOperator math locale nextOperator m
         = (m, [showError (zero_divisor_message (currentStrategy m))])).
Proof.
  split; [|split].
  - exact divide_by_zero.
  - intros now m Hop Hprev Hzero. unfold equals.
    rewrite Hop, Hprev, (strict_eq_zero_not_NaN _ Hzero). cbn [orb].
    now rewrite calculate_divide_by_zero.
  - intros next m Hop Hprev Hwait Hzero. unfold inputOperator.
    rewrite Hop, Hprev, Hwait, (strict_eq_zero_not_NaN _ Hzero).
    cbn [truthy operator_text negb andb String.eqb Ascii.eqb Bool.eqb].
    now rewrite calculate_divide_by_zero.
Qed.

End DivisionByZero.

(** Seven divided by zero: the state before the equals key. *)
Definition seven_by_zero : Model :=
  {| currentValue := "0"; previousValue := "7"; operator := Some "/";
     isWaitingForOperand := false; history := "7 /"; memoryValue := 0%float;
     calculationHistory := []; currentStrategy := basic;
     commandHistory := new_CommandHistory |}.

Lemma division_by_zero_leaves_state_witness :
  strict_eq (parseFloat (currentValue seven_by_zero)) 0%float = true
  /\ (forall (math : MathObject) (locale : Locale),
         (exists divide,
             CalculationStrategies.basic_operations "/" = Some divide
             /\ divide 7%float 0%float = Throw "Division by zero")
         /\ run math locale [Digit "7"; Operator "/"; Digit "0"] fresh
            = seven_by_zero
         /\ equals math locale 1 seven_by_zero
            = (seven_by_zero, [showError "Division by zero"])
         /\ inputOperator math locale "+" seven_by_zero
            = (seven_by_zero, [showError "Division by zero"])).
Proof.
  split; [reflexivity|].
  intros math locale.
  pose proof (division_by_zero_leaves_state math locale) as [Hdiv [Heq Hop]].
  split; [exact (Hdiv 7%float 0%float eq_refl)|].
  split; [vm_compute; reflexivity|]. split.
  - exact (Heq 1 seven_by_zero eq_refl eq_refl eq_refl).
  - exact (Hop "+" seven_by_zero eq_refl eq_refl eq_refl eq_refl).
Defined.

(** ** The number formatter *)

(** The four outcomes of the formatter. *)
Inductive Rendering : Type :=
| InvalidNumber
| Exponential
| Grouped
| Plain.

Definition render (locale : Locale) (r : Rendering) (n : number)
  : completion string :=
  match r with
  | InvalidNumber => Throw "Invalid number"
  | Exponential => Normal (toExponential 5 n)
  | Grouped => Normal (toLocaleString locale n)
  | Plain => Normal (toString n)
  end.

Definition invalid (n : number) : bool := isNaN n || negb (isFinite n).

Definition long_form (n : number) : bool :=
  (12 <? String.length (toString n))%nat.

Definition thousand_or_more (n : number) : bool :=
  ge (PrimFloat.abs n) 1000%float.

(** The decision as the specification words it: invalid, else long, else
    "the magnitude is at least 1000 and the value has no fractional part",
    else plain. *)
Definition rendering_by_value (n : number) : Rendering :=
  if invalid n then InvalidNumber
  else if long_form n then Exponential
  else if thousand_or_more n && isInteger n then Grouped
  else Plain.

(** The same decision with the third test read on the default string form:
    it has no decimal point. *)
Definition rendering_by_text (n : number) : Rendering :=
  if invalid n then InvalidNumber
  else if long_form n then Exponential
  else if thousand_or_more n && negb (includes_char "." (toString n))
  then Grouped
  else Plain.

(** 1.5e21 is an integer above 1000 whose default string form, "1.5e+21",
    is short and has a decimal point: the formatter returns it as it is,
    where grouping would give "1,500,000,000,000,000,000,000". *)
Lemma formatNumber_integer_not_grouped :
  ~ (forall (locale : Locale) (n : number),
        CalculatorModel.formatNumber locale n
        = render locale (rendering_by_value n) n).
Proof.
  intros H. specialize (H EnUS.locale 1.5e21%float).
  vm_compute in H. discriminate H.
Qed.

Lemma formatNumber_1_5e21 (locale : Locale) :
  isInteger 1.5e21%float = true
  /\ thousand_or_more 1.5e21%float = true
  /\ toString 1.5e21%float = "1.5e+21"
  /\ CalculatorModel.formatNumber locale 1.5e21%float = Normal "1.5e+21"
  /\ toLocaleString EnUS.locale 1.5e21%float
     = "1,500,000,000,000,000,000,000".
Proof. repeat split; vm_compute; reflexivity. Qed.

(** C3 (as amended). [formatNumber] throws "Invalid number" exactly on NaN and
    the infinities.  Otherwise a default string form of more than 12
    characters gives [toExponential(5)], whatever the magnitude; failing
    that, a magnitude of at least 1000 with no decimal point in the default
    string form gives the locale's grouped form; and the default string form
    is returned in the remaining case. *)
Theorem formatNumber_cases (locale : Locale) (n : number) :
  (CalculatorModel.formatNumber locale n = Throw "Invalid number"
   <-> isNaN n = true \/ isFinite n = false)
  /\ CalculatorModel.formatNumber locale n
     = render locale (rendering_by_text n) n
  /\ (invalid n = false -> long_form n = true ->
      CalculatorModel.formatNumber locale n = Normal (toExponential 5 n)).
Proof.
  unfold CalculatorModel.formatNumber, rendering_by_text, invalid, long_form,
    thousand_or_more.
  split; [|split].
  - destruct (isNaN n), (isFinite n); cbn [orb negb];
      try (split; [intros _; auto | reflexivity]).
    split; [|intros [H|H]; discriminate H].
    destruct (_ <? _)%nat; [discriminate|].
    destruct (_ && _); discriminate.
  - destruct (isNaN n || negb (isFinite n)); [reflexivity|].
    destruct (_ <? _)%nat; [reflexivity|].
    destruct (_ && _); reflexivity.
  - intros Hvalid Hlong. now rewrite Hvalid, Hlong.
Qed.

(** A 15-digit integer is above 1000 and has no decimal point, and is still
    rendered in exponential form. *)
Lemma formatNumber_cases_witness :
  invalid 123456789012345%float = false
  /\ long_form 123456789012345%float = true
  /\ thousand_or_more 123456789012345%float = true
  /\ isInteger 123456789012345%float = true
  /\ forall locale : Locale,
       CalculatorModel.formatNumber locale 123456789012345%float
       = Normal "1.23457e+14".
Proof.
  do 4 (split; [vm_compute; reflexivity|]).
  intros locale.
  exact (proj2 (proj2 (formatNumber_cases locale 123456789012345%float))
           eq_refl eq_refl).
Defined.

(** ** The memory register *)

(** The amount [parseFloat(x) || 0] reads from [x]. *)
Definition amount (x : string) : number :=
  if isNaN (parseFloat x) then 0%float
  else if strict_eq (parseFloat x) 0%float then 0%float
  else parseFloat x.

Lemma or_zero_amount (x : string) : or_zero (parseFloat x) = amount x.
Proof.
  unfold or_zero, amount. destruct (isNaN _); [reflexivity|].
  cbn [orb]. reflexivity.
Qed.

(** Memory operations write the memory value and nothing else. *)
Definition same_but_memory (m m' : Model) : Prop :=
  m' = setMemoryValue (memoryValue m') m.

(** [recall] does not return the formatter's rendering of the value: it
    returns [memoryValue.toString()].  With thirteen digits in memory the
    two differ, "1234567890123" against "1.23457e+12". *)
Lemma memoryRecall_not_formatted :
  ~ (forall (locale : Locale) (x : string) (m : Model),
        CalculatorModel.formatNumber locale (memoryValue (memoryStore x m))
        = Normal (memoryRecall (memoryStore x m))).
Proof.
  intros H. specialize (H EnUS.locale "1234567890123" fresh).
  vm_compute in H. discriminate H.
Qed.

(** C9 (as amended). The memory operations are total functions of the model
    that change the memory value only.  [store(x)] sets it to the number
    [parseFloat] reads from [x], or to 0 when that is NaN; [add(x)] and
    [subtract(x)] add and subtract that amount; [clear()] sets it to 0;
    [recall()] returns the default string form of the value, the one of
    [toString], not the formatter's.  [store("5")], [add("3")], [recall()]
    returns "8". *)
Theorem memory_operations (x : string) (m : Model) :
  (memoryValue (memoryStore x m) = amount x
   /\ same_but_memory m (memoryStore x m))
  /\ (memoryValue (memoryAdd x m) = (memoryValue m + amount x)%float
      /\ same_but_memory m (memoryAdd x m))
  /\ (memoryValue (memorySubtract x m) = (memoryValue m - amount x)%float
      /\ same_but_memory m (memorySubtract x m))
  /\ (memoryValue (memoryClear m) = 0%float
      /\ same_but_memory m (memoryClear m))
  /\ memoryRecall m = toString (memoryValue m)
  /\ memoryRecall (memoryAdd "3" (memoryStore "5" m)) = "8".
Proof.
  unfold memoryStore, memoryAdd, memorySubtract, memoryClear, memoryRecall,
    same_but_memory.
  rewrite or_zero_amount.
  repeat split.
Qed.

(** A number passed to [store] is first converted to a string: [store(5)]
    is [store("5")]. *)
Lemma memory_scenario (m : Model) :
  toString 5%float = "5"
  /\ toString 3%float = "3"
  /\ memoryValue (memoryAdd "3" (memoryStore "5" m)) = 8%float.
Proof. repeat split. Qed.

(** What the memory buttons do with a grouped display: "1,234" is read
    as 1. *)
Lemma memory_add_grouped (m : Model) :
  memoryValue (memoryAdd "1,234" (memoryClear m)) = 1%float.
Proof. reflexivity. Qed.

(** ** Scientific functions *)

Section ScientificFunctions.

Variable math : MathObject.
Variable locale : Locale.

(** What [performScientificFunction] does when the function succeeds: the
    formatted result is written to [currentValue], [isWaitingForOperand] is
    set, and the entry logged carries the formatted result both as its
    result and inside its expression, because the expression is built from
    [getCurrentValue()] after the write. *)
Lemma performScientificFunction_success
  (now : Z) (func : string) (m : Model) (value : number) :
  (func =? "pi")%string = false ->
  (func =? "e")%string = false ->
  isNaN (parseFloat (currentValue m)) = false ->
  scientificCalculate math func (parseFloat (currentValue m)) = Normal value ->
  fst (performScientificFunction math locale now func m)
  = addToHistory now
      (func ++ "(" ++ fst (formatNumber locale value) ++ ")")
      (fst (formatNumber locale value))
      (setWaitingForOperand true
         (setCurrentValue (fst (formatNumber locale value)) m)).
Proof.
  intros Hpi He Hnan Hcalc. unfold performScientificFunction.
  rewrite Hpi, He, Hnan, Hcalc. cbn [orb].
  destruct (formatNumber locale value) as [formatted notices].
  reflexivity.
Qed.

(** A function that throws leaves the model as it was. *)
Lemma performScientificFunction_failure
  (now : Z) (func : string) (m : Model) (msg : string) :
  (func =? "pi")%string = false ->
  (func =? "e")%string = false ->
  isNaN (parseFloat (currentValue m)) = false ->
  scientificCalculate math func (parseFloat (currentValue m)) = Throw msg ->
  performScientificFunction math locale now func m
  = (m, [clearError; showError msg]).
Proof.
  intros Hpi He Hnan Hcalc. unfold performScientificFunction.
  now rewrite Hpi, He, Hnan, Hcalc.
Qed.

(** C6. The square root of the operand "9": the display becomes "3", a new
    operand is awaited, and the entry logged reads "sqrt(3)" with result
    "3".  The operand the function was applied to, 9, is not in it. *)
Theorem sqrt_of_nine_is_logged_as_sqrt_of_three (now : Z) :
  fst (performScientificFunction math locale now "sqrt"
         (setCurrentValue "9" fresh))
  = {| currentValue := "3"; previousValue := ""; operator := None;
       isWaitingForOperand := true; history := ""; memoryValue := 0%float;
       calculationHistory :=
         [{| id := now; expression := "sqrt(3)"; result := "3";
             timestamp := now |}];
       currentStrategy := basic; commandHistory := new_CommandHistory |}.
Proof. vm_compute. reflexivity. Qed.

(** The sibling path, the equals key, takes its operands before it writes:
    "9 - 6" is logged as "9 - 6". *)
Lemma equals_logs_its_operands (now : Z) :
  calculationHistory
    (run math locale [Digit "9"; Operator "-"; Digit "6"; Equals now] fresh)
  = [{| id := now; expression := "9 - 6"; result := "3"; timestamp := now |}].
Proof. vm_compute. reflexivity. Qed.

End ScientificFunctions.

(** ** Undo *)

Section Undo.

Variable math : MathObject.
Variable locale : Locale.

Lemma undo_empty (m : Model) :
  commandHistory m = new_CommandHistory ->
  Commands.undo m = (m, Normal false)
  /\ CalculatorController.undo m
     = (m, Normal [showToast "Nothing to undo" "error"]).
Proof.
  intros H. unfold CalculatorController.undo, Commands.undo.
  rewrite H. split; reflexivity.
Qed.

(** No handler runs a command through [CommandHistory.execute]: the stack
    is the empty one it was created as, whatever the events. *)
Lemma handle_commandHistory (e : Event) (m : Model) :
  commandHistory m = new_CommandHistory ->
  commandHistory (fst (handle math locale e m)) = new_CommandHistory.
Proof.
  intros H.
  destruct e; cbn [handle];
    try (rewrite (proj2 (undo_empty m H)); exact H);
    unfold inputNumber, inputOperator, inputDecimal, equals, clear, deleteLast,
      performPercentage, performScientificFunction, memoryClearClick,
      memoryRecallClick, memoryAddClick, memorySubtractClick,
      handleModeToggle, handleClearHistory, loadFromHistory, addToHistory,
      memoryClear, memoryAdd, memorySubtract, clearHistory;
    repeat match goal with
      | |- context [match ?x with _ => _ end] => destruct x
      end;
    exact H.
Qed.

Lemma reachable_commandHistory (m : Model) :
  reachable math locale m -> commandHistory m = new_CommandHistory.
Proof.
  induction 1 as [mem hist | e m _ IH]; [reflexivity|].
  now apply handle_commandHistory.
Qed.

(** In every reachable state [undo] reports that there is nothing to undo
    and changes nothing. *)
Lemma reachable_undo (m : Model) :
  reachable math locale m ->
  handle math locale Undo m = (m, [showToast "Nothing to undo" "error"]).
Proof.
  intros H. cbn [handle].
  now rewrite (proj2 (undo_empty m (reachable_commandHistory m H))).
Qed.

(** After the digit 5 is entered in a fresh calculator the operand is "5";
    [undo()] then returns false, the controller shows "Nothing to undo", and
    the operand is still "5", not the "0" it was before. *)
Lemma undo_after_digit_restores_nothing :
  currentValue fresh = "0"
  /\ currentValue (run math locale [Digit "5"] fresh) = "5"
  /\ Commands.undo (run math locale [Digit "5"] fresh)
     = (run math locale [Digit "5"] fresh, Normal false)
  /\ handle math locale Undo (run math locale [Digit "5"] fresh)
     = (run math locale [Digit "5"] fresh,
        [showToast "Nothing to undo" "error"]).
Proof. repeat split. Qed.

End Undo.

(** ** What the undo key does *)

(** [CalculatorModel] has no [performOperation]: the call in
    [CalculationCommand.execute] is a TypeError (in V8's wording). *)
Definition performOperation_missing (operation operand : string) (m : Model)
  : Model * completion unit :=
  (m, Throw "this.calculator.performOperation is not a function").

(** So a command on the model cannot be executed: [execute] throws and
    pushes nothing, whatever the command and the state. *)
Lemma execute_on_the_model_throws (command : address) (m : Model) :
  snd (Commands.execute performOperation_missing command m)
  = Throw "this.calculator.performOperation is not a function"
  /\ commands
       (commandHistory
          (fst (Commands.execute performOperation_missing command m)))
     = Commands.slice0 (currentIndex (commandHistory m) + 1)
         (commands (commandHistory m))
  /\ getState (fst (Commands.execute performOperation_missing command m))
     = getState m.
Proof. repeat split. Qed.

Section UndoKey.

Variable math : MathObject.
Variable locale : Locale.

Lemma run_commandHistory (events : list Event) (m : Model) :
  commandHistory m = new_CommandHistory ->
  commandHistory (run math locale events m) = new_CommandHistory.
Proof.
  unfold run. revert m. induction events as [|e events IH]; intros m Hm.
  - exact Hm.
  - cbn [fold_left]. apply IH. now apply handle_commandHistory.
Qed.

Lemma run_undos (n : nat) (m : Model) :
  commandHistory m = new_CommandHistory ->
  run math locale (repeat Undo n) m = m.
Proof.
  intros Hm. unfold run. induction n as [|n IH]; [reflexivity|].
  cbn [repeat fold_left handle].
  rewrite (proj2 (undo_empty m Hm)). exact IH.
Qed.

(** C1.  No operation is wrapped by the undo history.  Whatever operations
    were performed since start-up, the stack is the empty one it was created
    as: [undo()] returns false at once, and any number of undos leaves the
    state as the operations left it.  After the one operation "digit 5" on a
    fresh calculator the state differs from the one before it; the first
    [undo()] returns false and the operand is still "5", not the "0" it
    was. *)
Theorem undo_restores_nothing :
  (forall (savedMemory : number) (savedHistory : list HistoryItem)
          (events : list Event) (n : nat),
      let m := run math locale events (initial savedMemory savedHistory) in
      commandHistory m = new_CommandHistory
      /\ Commands.undo m = (m, Normal false)
      /\ run math locale (repeat Undo n) m = m)
  /\ getState (run math locale [Digit "5"] fresh) <> getState fresh
  /\ Commands.undo (run math locale [Digit "5"] fresh)
     = (run math locale [Digit "5"] fresh, Normal false)
  /\ currentValue (run math locale [Digit "5"; Undo] fresh) = "5"
  /\ currentValue fresh = "0".
Proof.
  split; [|split; [discriminate | repeat split]].
  intros savedMemory savedHistory events n. cbv zeta.
  assert (Hstack : commandHistory
                     (run math locale events
                        (initial savedMemory savedHistory))
                   = new_CommandHistory)
    by (now apply run_commandHistory).
  split; [exact Hstack|]. split.
  - exact (proj1 (undo_empty _ Hstack)).
  - now apply run_undos.
Qed.

End UndoKey.

(** ** The textual form of the operand *)

(** Canonical form: an optional "-", then "0" or digits that do not start
    with "0", then at most one "." with digits after it. *)
Fixpoint fraction_digits (s : string) : bool :=
  match s with
  | EmptyString => true
  | String c r => is_digit c && fraction_digits r
  end.

Fixpoint integer_tail (s : string) : bool :=
  match s with
  | EmptyString => true
  | String c r =>
      if Ascii.eqb c "." then fraction_digits r
      else is_digit c && integer_tail r
  end.

Definition canonical_unsigned (s : string) : bool :=
  match s with
  | EmptyString => false
  | String c r =>
      if Ascii.eqb c "0" then
        match r with
        | EmptyString => true
        | String d f => Ascii.eqb d "." && fraction_digits f
        end
      else is_digit c && integer_tail r
  end.

Definition canonical (s : string) : bool :=
  match s with
  | String "-" r => canonical_unsigned r
  | _ => canonical_unsigned s
  end.











(** [slice(0, -1)] by recursion on the string. *)
Fixpoint but_last (s : string) : string :=
  match s with
  | EmptyString => EmptyString
  | String c EmptyString => EmptyString
  | String c r => String c (but_last r)
  end.

Lemma drop_last_but_last (s : string) : drop_last s = but_last s.
Proof.
  unfold drop_last. induction s as [|c r IH]; [reflexivity|].
  destruct r as [|d r']; [reflexivity|].
  cbn [String.length Nat.sub] in *. rewrite Nat.sub_0_r in *.
  cbn [substring but_last]. f_equal. exact IH.
Qed.





Section Canonical.

Variable math : MathObject.
Variable locale : Locale.


End Canonical.






Section CanonicalOperand.

Variable math : MathObject.
Variable locale : Locale.










End CanonicalOperand.


(** Under the en-US locale 1000 + 234 leaves "1,234", which [parseFloat]
    reads as 1: "+ 1 =" then shows "2". *)
Lemma grouped_result_is_read_back_as_one (math : MathObject) :
  parseFloat "1,234" = 1%float
  /\ currentValue
       (run math EnUS.locale
          [Digit "1"; Digit "0"; Digit "0"; Digit "0"; Operator "+";
           Digit "2"; Digit "3"; Digit "4"; Equals 0;
           Operator "+"; Digit "1"; Equals 1] fresh)
     = "2".
Proof. split; vm_compute; reflexivity. Qed.


Lemma grouped_result_is_not_canonical (math : MathObject) :
  currentValue
    (run math EnUS.locale
       [Digit "1"; Digit "0"; Digit "0"; Digit "0"; Operator "+";
        Digit "2"; Digit "3"; Digit "4"; Equals 0] fresh)
  = "1,234"
  /\ canonical "1,234" = false.
Proof. split; vm_compute; reflexivity. Qed.

Lemma backspace_on_negative_is_not_canonical
  (math : MathObject) (locale : Locale) :
  currentValue
    (run math locale
       [Digit "3"; Operator "-"; Digit "8"; Equals 0; Delete] fresh)
  = "-"
  /\ canonical "-" = false.
Proof. split; vm_compute; reflexivity. Qed.

(** ** Factorial *)

Import CalculationStrategies.

(** The number whose value is the integer [n], for [0 <= n < 2^63]. *)
Definition of_int (n : Z) : number := of_uint63 (Uint63.of_Z n).

Lemma digits2_log2 (m : positive) :
  Zpos (digits2_pos m) = Z.log2 (Zpos m) + 1.
Proof.
  assert (H : forall p, digits2_pos p = Pos.size p).
  { induction p as [p IH|p IH|]; cbn; now rewrite ?IH. }
  rewrite H. destruct m; cbn; lia.
Qed.

(** The double whose value is the integer [q], for [0 < q < 2^53]. *)
Definition sf_of (q : Z) : spec_float :=
  let k := 52 - Z.log2 q in
  S754_finite false (Z.to_pos (q * 2 ^ k)) (- k).

Lemma small_integer_table :
  forallb (fun n => Leibniz.eqb (SF2Prim (sf_of (Z.of_nat n)))
                      (of_int (Z.of_nat n)))
          (seq 1 170) = true.
Proof. vm_compute. reflexivity. Qed.

Lemma finite_integer_bounds (m : positive) (e : Z) :
  bounded prec emax m e = true ->
  e < 0 ->
  Zpos m mod 2 ^ (- e) = 0 ->
  Z.log2 (Zpos m) = 52 /\ -52 <= e.
Proof.
  unfold bounded, canonical_mantissa, fexp, SpecFloat.emin.
  intros Hb He Hmod. apply andb_true_iff in Hb as [Hc _].
  apply Z.eqb_eq in Hc. rewrite digits2_log2 in Hc.
  change prec with 53 in Hc. change emax with 1024 in Hc.
  pose proof (Z.log2_spec (Zpos m) eq_refl) as [Hlo Hhi].
  assert (Hge : 2 ^ (- e) <= Zpos m).
  { apply Z.mod_divide in Hmod; [|apply Z.pow_nonzero; lia].
    apply Z.divide_pos_le; [lia | exact Hmod]. }
  assert (Hlog : - e <= Z.log2 (Zpos m)).
  { apply Z.log2_le_pow2; lia. }
  change (IntDef.Z.max ?a ?b) with (Z.max a b) in Hc.
  lia.
Qed.

Lemma sf_of_finite (m : positive) (e : Z) :
  Z.log2 (Zpos m) = 52 -> -52 <= e < 0 -> Zpos m mod 2 ^ (- e) = 0 ->
  S754_finite false m e = sf_of (Zpos m / 2 ^ (- e))
  /\ 1 <= Zpos m / 2 ^ (- e) < 2 ^ (53 + e).
Proof.
  intros Hlog He Hmod.
  pose proof (Z.log2_spec (Zpos m) eq_refl) as [Hlo Hhi]. rewrite Hlog in *.
  change (Z.succ 52) with 53 in Hhi.
  set (k := - e) in *. set (q := Zpos m / 2 ^ k).
  assert (Hk : 0 < 2 ^ k) by (apply Z.pow_pos_nonneg; lia).
  assert (Hm : Zpos m = q * 2 ^ k).
  { unfold q. rewrite Z.mul_comm. apply Z.div_exact; lia. }
  assert (Hsplit : 2 ^ 52 = 2 ^ (52 - k) * 2 ^ k).
  { rewrite <- Z.pow_add_r by lia. f_equal. lia. }
  assert (Hsplit' : 2 ^ 53 = 2 ^ (53 - k) * 2 ^ k).
  { rewrite <- Z.pow_add_r by lia. f_equal. lia. }
  assert (Hq : 2 ^ (52 - k) <= q < 2 ^ (53 - k)).
  { rewrite Hm, Hsplit in Hlo. rewrite Hm, Hsplit' in Hhi.
    split.
    - apply Z.mul_le_mono_pos_r in Hlo; assumption.
    - apply Z.mul_lt_mono_pos_r in Hhi; assumption. }
  assert (Hlq : Z.log2 q = 52 - k).
  { apply Z.log2_unique; [lia|].
    replace (Z.succ (52 - k)) with (53 - k) by lia. exact Hq. }
  split.
  - unfold sf_of. rewrite Hlq.
    replace (52 - (52 - k)) with k by lia.
    rewrite <- Hm. cbn [Z.to_pos]. f_equal. unfold k. lia.
  - replace (53 + e) with (53 - k) by (unfold k; lia).
    assert (0 < 2 ^ (52 - k)) by (apply Z.pow_pos_nonneg; lia).
    lia.
Qed.

Lemma factorial_domain (x : number) :
  factorial_guard x = false ->
  x = neg_zero
  \/ exists n : nat, (n <= 170)%nat /\ x = of_int (Z.of_nat n).
Proof.
  unfold factorial_guard, lt, gt. intros H.
  apply orb_false_iff in H as [H Hgt]. apply orb_false_iff in H as [Hlt Hint].
  apply negb_false_iff in Hint. rewrite ltb_spec in Hlt, Hgt.
  pose proof (Prim2SF_valid x) as Hv. pose proof (SF2Prim_Prim2SF x) as Hx.
  unfold isInteger in Hint.
  change (Prim2SF 0%float) with (S754_zero false) in Hlt.
  change (Prim2SF 170%float)
    with (S754_finite false 5981343255101440 (-45)) in Hgt.
  destruct (Prim2SF x) as [s|s| |s m e]; try discriminate Hint.
  - destruct s.
    + left. rewrite <- Hx. reflexivity.
    + right. exists 0%nat. split; [lia|]. rewrite <- Hx. reflexivity.
  - right. destruct s; [discriminate Hlt|]. clear Hlt.
    unfold SFltb, SFcompare in Hgt. cbn [valid_binary] in Hv.
    assert (He : e <= -45).
    { destruct (Z.compare_spec (-45) e); first [lia | discriminate Hgt]. }
    assert (Hmod : Zpos m mod 2 ^ (- e) = 0).
    { destruct (Z.leb_spec 0 e); [lia|]. cbn [orb] in Hint.
      now apply Z.eqb_eq. }
    destruct (finite_integer_bounds m e Hv ltac:(lia) Hmod) as [Hlog Hlo].
    destruct (sf_of_finite m e Hlog ltac:(lia) Hmod) as [Hsf Hq].
    set (q := Zpos m / 2 ^ (- e)) in *.
    assert (Hq170 : q <= 170).
    { destruct (Z.eq_dec e (-45)) as [->|Hne].
      - rewrite Z.compare_refl in Hgt.
        rewrite (Pos.compare_cont_spec 5981343255101440 m Eq) in Hgt.
        assert (Hm : Zpos m <= 5981343255101440).
        { destruct (Pos.compare_spec 5981343255101440 m) as [C|C|C].
          - rewrite <- C. apply Z.le_refl.
          - discriminate Hgt.
          - apply Z.lt_le_incl. exact C. }
        unfold q. clear - Hm.
        change (2 ^ (- -45)) with 35184372088832.
        apply Z.div_le_upper_bound; [reflexivity|exact Hm].
      - assert (H7 : 2 ^ (53 + e) <= 2 ^ 7) by (apply Z.pow_le_mono_r; lia).
        change (2 ^ 7) with 128 in H7. clear - Hq H7. lia. }
    exists (Z.to_nat q). split; [lia|].
    rewrite <- Hx, Hsf, Z2Nat.id by lia.
    pose proof small_integer_table as T.
    rewrite forallb_forall in T.
    specialize (T (Z.to_nat q)). rewrite Z2Nat.id in T by lia.
    apply Leibniz.eqb_spec, T, in_seq. lia.
Qed.

(** The product the loop computes for [n]: 1 times 2, 3, ..., [n], rounded
    at each step; it is 1 for [n] at most 1. *)
Definition product_to (n : nat) : number :=
  fold_left (fun r i => (r * of_int (Z.of_nat i))%float) (seq 2 (n - 1))
    1%float.

Lemma factorial_table :
  forallb
    (fun n =>
       match factorial (of_int (Z.of_nat n)) with
       | Normal r => Leibniz.eqb r (product_to n)
       | Throw _ => false
       end
       && match factorial_loop 170 2%float (of_int (Z.of_nat n)) 1%float with
          | Some _ => true
          | None => false
          end)
    (seq 0 171) = true.
Proof. vm_compute. reflexivity. Qed.

(** Past the guard the loop reaches its exit within the 170 rounds
    [factorial] gives it. *)
Lemma factorial_loop_exits (x : number) :
  factorial_guard x = false ->
  factorial_loop 170 2%float x 1%float <> None.
Proof.
  intros H. destruct (factorial_domain x H) as [->|[n [Hn ->]]].
  - vm_compute. discriminate.
  - pose proof factorial_table as T. rewrite forallb_forall in T.
    specialize (T n ltac:(apply in_seq; lia)).
    apply andb_true_iff in T as [_ T].
    destruct (factorial_loop _ _ _ _); [discriminate | discriminate T].
Qed.

Lemma factorial_value (x : number) :
  factorial_guard x = false ->
  exists n : nat,
    (n <= 170)%nat
    /\ (x = of_int (Z.of_nat n) \/ n = 0%nat /\ x = neg_zero)
    /\ factorial x = Normal (product_to n).
Proof.
  intros H. destruct (factorial_domain x H) as [->|[n [Hn ->]]].
  - exists 0%nat. split; [lia|]. split; [right; now split|]. run_code.
  - exists n. split; [exact Hn|]. split; [now left|].
    pose proof factorial_table as T. rewrite forallb_forall in T.
    specialize (T n ltac:(apply in_seq; lia)).
    apply andb_true_iff in T as [T _].
    destruct (factorial (of_int (Z.of_nat n))); [|discriminate T].
    apply Leibniz.eqb_spec in T. now rewrite T.
Qed.

(** [factorial] returns or throws "Invalid factorial input"; the bound of
    the loop is never what stops it. *)
Lemma factorial_total (x : number) :
  factorial x = Throw "Invalid factorial input"
  \/ exists r : number, factorial x = Normal r.
Proof.
  destruct (factorial_guard x) eqn:G.
  - left. unfold factorial. now rewrite G.
  - right. destruct (factorial_value x G) as [n [_ [_ H]]].
    now exists (product_to n).
Qed.

(** C4. [factorial] throws "Invalid factorial input" exactly when its
    argument is below zero, is not an integer, or is above 170.  Any other
    argument is one of the integers 0 to 170 (or the negative zero), and the
    result is the running product 2 * 3 * ... * n in double arithmetic, 1
    for 0 and 1.  [factorial(170)] is finite; [factorial(171)],
    [factorial(-1)] and [factorial(2.5)] throw. *)
Theorem factorial_domain_and_value :
  (forall x : number,
      factorial x = Throw "Invalid factorial input"
      <-> lt x 0%float = true \/ isInteger x = false \/ gt x 170%float = true)
  /\ (forall x : number,
         factorial_guard x = false ->
         exists n : nat,
           (n <= 170)%nat
           /\ (x = of_int (Z.of_nat n) \/ n = 0%nat /\ x = neg_zero)
           /\ factorial x = Normal (product_to n))
  /\ factorial 0%float = Normal 1%float
  /\ factorial 1%float = Normal 1%float
  /\ (exists r : number, factorial 170%float = Normal r /\ isFinite r = true)
  /\ factorial 171%float = Throw "Invalid factorial input"
  /\ factorial (-1)%float = Throw "Invalid factorial input"
  /\ factorial 2.5%float = Throw "Invalid factorial input".
Proof.
  split; [|split].
  - intros x. unfold factorial.
    assert (G : factorial_guard x = true
                <-> lt x 0%float = true \/ isInteger x = false
                    \/ gt x 170%float = true).
    { unfold factorial_guard.
      rewrite !orb_true_iff, negb_true_iff. tauto. }
    destruct (factorial_guard x).
    + split; [intros _; now apply G | reflexivity].
    + split; [|intros H; apply G in H; discriminate H].
      destruct (_ || _); [discriminate|].
      destruct (factorial_loop _ _ _ _); discriminate.
  - exact factorial_value.
  - repeat split; try run_code.
    eexists. split; run_code.
Qed.

Lemma factorial_domain_and_value_witness :
  factorial_guard 5%float = false
  /\ exists n : nat,
       (n <= 170)%nat
       /\ (5%float = of_int (Z.of_nat n) \/ n = 0%nat /\ 5%float = neg_zero)
       /\ factorial 5%float = Normal (product_to n).
Proof.
  split; [reflexivity|].
  exact (proj1 (proj2 factorial_domain_and_value) 5%float eq_refl).
Defined.

(** Up to 20 the running product is the factorial itself: no rounding has
    happened yet. *)
Definition Z_factorial (n : nat) : Z :=
  fold_left Z.mul (map Z.of_nat (seq 1 n)) 1.

Lemma product_to_exact :
  forallb (fun n => Leibniz.eqb (product_to n) (of_int (Z_factorial n)))
    (seq 0 21)
  = true.
Proof. vm_compute. reflexivity. Qed.

Lemma factorial_of_five :
  factorial 5%float = Normal 120%float
  /\ product_to 5 = 120%float
  /\ factorial 170%float = Normal 0x1.4ab7864418635p+1019%float
  /\ toString 0x1.4ab7864418635p+1019%float = "7.257415615307994e+306".
Proof. split; [|split; [|split]]; vm_compute; reflexivity. Qed.

(** ** An operation for the undo stack *)

(** [CalculatorModel] defines no [performOperation]; where an instance of
    that parameter is needed to run the stack, digit entry stands for it:
    the operand is the digit. *)
Definition type_digit (operation operand : string) (m : Model)
  : Model * completion unit :=
  (fst (CalculatorController.inputNumber operand m), Normal tt).

Lemma type_digit_frame (op arg : string) (m : Model) :
  commandHistory (fst (type_digit op arg m)) = commandHistory m.
Proof.
  unfold type_digit, CalculatorController.inputNumber. cbn [fst].
  destruct (isWaitingForOperand m); [reflexivity|].
  destruct (_ <? _)%nat; reflexivity.
Qed.

(** ** End-to-end scenarios *)

Section Scenarios.

Variable math : MathObject.
Variable locale : Locale.

(** 5 + 3 = shows "8" and logs "5 + 3". *)
Example five_plus_three (now : Z) :
  run math locale [Digit "5"; Operator "+"; Digit "3"; Equals now] fresh
  = {| currentValue := "8"; previousValue := ""; operator := None;
       isWaitingForOperand := true; history := "5 + 3 =";
       memoryValue := 0%float;
       calculationHistory :=
         [{| id := now; expression := "5 + 3"; result := "8";
             timestamp := now |}];
       currentStrategy := basic; commandHistory := new_CommandHistory |}.
Proof. vm_compute. reflexivity. Qed.

(** The square root of "-4" throws, and the model is the one before. *)
Example sqrt_of_minus_four (now : Z) (m : Model) :
  currentValue m = "-4" ->
  handle math locale (Function "sqrt" now) m
  = (m, [clearError; showError "Invalid square root input"]).
Proof.
  intros H. cbn [handle].
  apply performScientificFunction_failure; try reflexivity; rewrite H;
    vm_compute; reflexivity.
Qed.

(** 0.1 + 0.2 = shows the sum in exponential form. *)
Example tenth_plus_fifth (now : Z) :
  currentValue
    (run math locale
       [Digit "0"; DecimalPoint; Digit "1"; Operator "+";
        Digit "0"; DecimalPoint; Digit "2"; Equals now] fresh)
  = "3.00000e-1".
Proof. vm_compute. reflexivity. Qed.

End Scenarios.

(** * The parts around the calculator *)

(** ** The undo stack: shape, capacity and the redo tail *)

(** The index points into the stack or is -1, and the stack is within its
    capacity. *)
Definition well_formed (h : CommandHistory) : Prop :=
  -1 <= currentIndex h < Z.of_nat (List.length (commands h))
  /\ Z.of_nat (List.length (commands h)) <= maxHistory h.

Section StackShape.

Variable performOperation :
  string -> string -> Model -> Model * completion unit.

Hypothesis performOperation_frame : forall op arg m,
  commandHistory (fst (performOperation op arg m)) = commandHistory m.

(** The model [execute] hands to the command: the redo tail is cut. *)
Definition cut (m : Model) : Model :=
  setCommandHistory
    (Commands.setCommands
       (Commands.slice0 (currentIndex (commandHistory m) + 1)
          (commands (commandHistory m)))
       (commandHistory m)) m.

Lemma cut_stack (m : Model) :
  well_formed (commandHistory m) ->
  commands (commandHistory (cut m))
  = firstn (Z.to_nat (currentIndex (commandHistory m) + 1))
      (commands (commandHistory m))
  /\ Z.of_nat (List.length (commands (commandHistory (cut m))))
     = currentIndex (commandHistory m) + 1
  /\ getState (cut m) = getState m.
Proof.
  intros [Hi Hc]. unfold cut, Commands.setCommands, Commands.slice0.
  cbn [commandHistory setCommandHistory commands].
  destruct (Z.leb_spec 0 (currentIndex (commandHistory m) + 1)); [|lia].
  split; [reflexivity|]. split; [|reflexivity].
  rewrite length_firstn. lia.
Qed.

(** What the command's own [execute] leaves: the stack as it was, and the
    snapshot in the object. *)
Lemma command_execute_frame (command : address) (m : Model) :
  let m2 := fst (Commands.command_execute performOperation command m) in
  commands (commandHistory m2) = commands (commandHistory m)
  /\ currentIndex (commandHistory m2) = currentIndex (commandHistory m)
  /\ maxHistory (commandHistory m2) = maxHistory (commandHistory m)
  /\ previousState (objects (commandHistory m2) command)
     = Some (getState m).
Proof.
  cbv zeta. unfold Commands.command_execute.
  rewrite performOperation_frame.
  cbn [commandHistory setCommandHistory Commands.setObject commands
       currentIndex maxHistory objects].
  rewrite Nat.eqb_refl. repeat split.
Qed.

(** The stack after [execute]: what the command left, with its reference
    pushed, and the oldest reference shifted out when that exceeds the
    capacity. *)
Lemma execute_unfold (command : address) (m : Model) :
  Commands.execute performOperation command m
  = match Commands.command_execute performOperation command (cut m) with
    | (m2, Throw msg) => (m2, Throw msg)
    | (m2, Normal _) =>
        let h2 := commandHistory m2 in
        let pushed := (commands h2 ++ [command])%list in
        (setCommandHistory
           (if maxHistory h2 <? Z.of_nat (List.length pushed)
            then {| objects := objects h2; commands := tl pushed;
                    currentIndex := currentIndex h2 + 1 - 1;
                    maxHistory := maxHistory h2 |}
            else {| objects := objects h2; commands := pushed;
                    currentIndex := currentIndex h2 + 1;
                    maxHistory := maxHistory h2 |}) m2,
         Normal tt)
    end.
Proof. reflexivity. Qed.

(** X1. [execute] keeps the stack well formed and leaves its index on the
    top.  After a successful command the stack holds
    min(index + 2, maxHistory) commands: the redo tail is cut, the command
    is pushed and, at capacity, the oldest one is shifted out.  When the
    command throws, the redo tail is cut all the same and nothing is
    pushed. *)
Theorem execute_stack_shape (command : address) (m : Model) :
  well_formed (commandHistory m) ->
  let h := commandHistory m in
  let h' := commandHistory (fst (Commands.execute performOperation command m)) in
  well_formed h'
  /\ maxHistory h' = maxHistory h
  /\ currentIndex h' = Z.of_nat (List.length (commands h')) - 1
  /\ match snd (Commands.execute performOperation command m) with
     | Normal _ =>
         Z.of_nat (List.length (commands h'))
         = Z.min (currentIndex h + 2) (maxHistory h)
     | Throw _ =>
         commands h' = firstn (Z.to_nat (currentIndex h + 1)) (commands h)
     end.
Proof.
  intros Hwf. pose proof Hwf as [Hi Hc].
  destruct (cut_stack m Hwf) as [Hcut [Hlen _]].
  cbv zeta. rewrite execute_unfold.
  pose proof (command_execute_frame command (cut m)) as Hf. cbv zeta in Hf.
  destruct Hf as [Hcs [Hix [Hmx _]]].
  assert (Hmax : maxHistory (commandHistory (cut m))
                 = maxHistory (commandHistory m)) by reflexivity.
  assert (Hidx : currentIndex (commandHistory (cut m))
                 = currentIndex (commandHistory m)) by reflexivity.
  destruct (Commands.command_execute performOperation command (cut m))
    as [m2 [[]|msg]]; cbn [fst snd] in *.
  - cbv zeta. rewrite Hcs, Hix, Hmx, Hmax, Hidx, length_app.
    cbn [List.length].
    set (cs := commands (commandHistory (cut m))) in *.
    destruct (Z.ltb_spec (maxHistory (commandHistory m))
                (Z.of_nat (List.length cs + 1))) as [Hover|Hfit];
      unfold well_formed;
      cbn [commandHistory setCommandHistory commands currentIndex maxHistory].
    + assert (Htl : Z.of_nat (List.length (tl (cs ++ [command])%list))
                    = Z.of_nat (List.length cs)).
      { destruct cs; cbn [app tl List.length]; [reflexivity|].
        rewrite length_app. cbn [List.length]. lia. }
      rewrite Htl. lia.
    + rewrite length_app. cbn [List.length]. lia.
  - unfold well_formed. rewrite Hcs, Hix, Hmx, Hmax, Hidx.
    repeat split; try lia. exact Hcut.
Qed.

(** X2. An [undo] right after a successful [execute] brings back the fields
    of [getState], whatever was on the stack, also at full capacity. *)
Theorem execute_then_undo (command : address) (m m' : Model) :
  well_formed (commandHistory m) ->
  1 <= maxHistory (commandHistory m) ->
  Commands.execute performOperation command m = (m', Normal tt) ->
  exists m'',
    Commands.undo m' = (m'', Normal true)
    /\ getState m'' = getState m
    /\ calculationHistory m'' = calculationHistory m'
    /\ currentStrategy m'' = currentStrategy m'.
Proof.
  intros Hwf Hmax Hex. pose proof Hwf as [Hi Hc].
  destruct (cut_stack m Hwf) as [_ [Hlen Hstate]].
  rewrite execute_unfold in Hex.
  pose proof (command_execute_frame command (cut m)) as Hf. cbv zeta in Hf.
  destruct Hf as [Hcs [Hix [Hmx Hsnap]]].
  assert (Hm : maxHistory (commandHistory (cut m))
               = maxHistory (commandHistory m)) by reflexivity.
  assert (Hidx : currentIndex (commandHistory (cut m))
                 = currentIndex (commandHistory m)) by reflexivity.
  destruct (Commands.command_execute performOperation command (cut m))
    as [m2 [[]|msg]]; [|discriminate Hex].
  cbn [fst] in *. cbv zeta in Hex.
  rewrite Hcs, Hix, Hmx, Hm, Hidx in Hex. rewrite Hstate in Hsnap.
  set (cs := commands (commandHistory (cut m))) in *.
  assert (Htop : forall k, Z.of_nat (List.length cs) = k + 1 ->
                 nth_error (cs ++ [command]) (Z.to_nat (k + 1))
                 = Some command).
  { intros k Hk. rewrite nth_error_app2 by lia.
    replace (Z.to_nat (k + 1) - List.length cs)%nat with 0%nat by lia.
    reflexivity. }
  rewrite length_app in Hex. cbn [List.length] in Hex.
  destruct (Z.ltb_spec (maxHistory (commandHistory m))
              (Z.of_nat (List.length cs + 1))) as [Hover|Hfit];
    injection Hex as <-; unfold Commands.undo, Commands.command_undo;
    cbn [commandHistory setCommandHistory commands currentIndex maxHistory
         objects].
  - destruct (Z.leb_spec 0 (currentIndex (commandHistory m) + 1 - 1)); [|lia].
    assert (Hnth : nth_error (tl (cs ++ [command]))
                     (Z.to_nat (currentIndex (commandHistory m) + 1 - 1))
                   = Some command).
    { destruct cs as [|c0 cs']; [cbn [List.length] in *; lia|].
      cbn [app tl]. cbn [List.length] in Hlen.
      rewrite nth_error_app2 by lia.
      replace (Z.to_nat (currentIndex (commandHistory m) + 1 - 1)
               - List.length cs')%nat with 0%nat by lia.
      reflexivity. }
    rewrite Hnth, Hsnap. eexists. split; [reflexivity|].
    split; [|split; reflexivity].
    destruct (getState m); reflexivity.
  - destruct (Z.leb_spec 0 (currentIndex (commandHistory m) + 1)); [|lia].
    rewrite (Htop (currentIndex (commandHistory m)) ltac:(lia)), Hsnap.
    eexists. split; [reflexivity|].
    split; [|split; reflexivity].
    destruct (getState m); reflexivity.
Qed.

End StackShape.

(** X3. [undo] on a well-formed stack.  It returns true exactly when
    [canUndo] holds and never throws; it then steps the index down and may
    rewrite the fields of [getState], and nothing else: the stack, the
    calculation log and the strategy are kept.  Otherwise it returns false
    and the model is the same. *)
Theorem undo_well_formed (m : Model) :
  well_formed (commandHistory m) ->
  (Commands.canUndo m = false /\ Commands.undo m = (m, Normal false))
  \/ (Commands.canUndo m = true
      /\ exists m',
           Commands.undo m = (m', Normal true)
           /\ commandHistory m'
              = Commands.setCurrentIndex (currentIndex (commandHistory m) - 1)
                  (commandHistory m)
           /\ well_formed (commandHistory m')
           /\ calculationHistory m' = calculationHistory m
           /\ currentStrategy m' = currentStrategy m).
Proof.
  intros [Hi Hc]. unfold Commands.canUndo, Commands.undo.
  destruct (Z.leb_spec 0 (currentIndex (commandHistory m))) as [Hge|Hlt].
  - right. split; [reflexivity|].
    destruct (nth_error (commands (commandHistory m))
                (Z.to_nat (currentIndex (commandHistory m)))) as [c|] eqn:Hn;
      [|apply nth_error_None in Hn; lia].
    eexists. split; [reflexivity|].
    unfold Commands.command_undo, well_formed.
    destruct (previousState _);
      cbn [commandHistory setCommandHistory setState Commands.setCurrentIndex
           commands currentIndex maxHistory calculationHistory
           currentStrategy];
      repeat split; lia.
  - left. split; reflexivity.
Qed.

(** Snapshots: [setState(getState())] changes nothing and [getState] after
    [setState(s)] is [s]. *)
Lemma state_snapshot_round_trip (s : State) (m : Model) :
  setState (getState m) m = m /\ getState (setState s m) = s.
Proof. destruct s, m. split; reflexivity. Qed.

(** A fresh calculator and one command object, at address 0: the digit 7. *)
Definition seven : Model :=
  Commands.new_CalculationCommand 0%nat "inputNumber" "7" fresh.

Lemma well_formed_new : well_formed new_CommandHistory.
Proof. unfold well_formed. cbn. lia. Qed.

Lemma execute_stack_shape_witness :
  well_formed (commandHistory seven)
  /\ commands (commandHistory (fst (Commands.execute type_digit 0%nat seven)))
     = [0%nat]
  /\ previousState
       (objects (commandHistory (fst (Commands.execute type_digit 0%nat seven)))
          0%nat)
     = Some (getState fresh)
  /\ well_formed
       (commandHistory (fst (Commands.execute type_digit 0%nat seven)))
  /\ currentIndex
       (commandHistory (fst (Commands.execute type_digit 0%nat seven)))
     = 0.
Proof.
  split; [exact well_formed_new|]. split; [reflexivity|].
  split; [reflexivity|].
  pose proof (execute_stack_shape type_digit type_digit_frame 0%nat seven
                well_formed_new) as H.
  cbv zeta in H. destruct H as [Hwf [_ [Hidx _]]].
  split; [exact Hwf | exact Hidx].
Defined.

Lemma execute_then_undo_witness :
  well_formed (commandHistory seven)
  /\ 1 <= maxHistory (commandHistory seven)
  /\ exists m' m'',
       Commands.execute type_digit 0%nat seven = (m', Normal tt)
       /\ currentValue m' = "7"
       /\ Commands.undo m' = (m'', Normal true)
       /\ getState m'' = getState seven.
Proof.
  split; [exact well_formed_new|]. split; [cbn; lia|].
  eexists.
  destruct (execute_then_undo type_digit type_digit_frame 0%nat seven _
              well_formed_new ltac:(cbn; lia) eq_refl)
    as [m'' [H1 [H2 _]]].
  exists m''. split; [reflexivity|]. split; [reflexivity|].
  split; [exact H1 | exact H2].
Defined.

Lemma undo_well_formed_witness :
  well_formed (commandHistory fresh)
  /\ Commands.canUndo fresh = false
  /\ Commands.undo fresh = (fresh, Normal false).
Proof.
  split; [exact well_formed_new|].
  destruct (undo_well_formed fresh well_formed_new) as [H|[H _]];
    [exact H | discriminate H].
Defined.

(** One object executed twice is on the stack twice and holds one snapshot,
    the later one: the two undos that follow both return true and both end
    at the state before the second operation, "7", not at the "0" before
    the first. *)
Lemma one_object_executed_twice :
  let m1 := fst (Commands.execute type_digit 0%nat seven) in
  let m2 := fst (Commands.execute type_digit 0%nat m1) in
  let m3 := fst (Commands.undo m2) in
  let m4 := fst (Commands.undo m3) in
  currentValue seven = "0"
  /\ currentValue m1 = "7"
  /\ currentValue m2 = "77"
  /\ commands (commandHistory m2) = [0; 0]%nat
  /\ snd (Commands.undo m2) = Normal true
  /\ currentValue m3 = "7"
  /\ snd (Commands.undo m3) = Normal true
  /\ currentValue m4 = "7"
  /\ Commands.canUndo m4 = false.
Proof. cbv zeta. repeat split. Qed.

(** ** Subscribing and unsubscribing *)

Section Emitter.

Import EventEmitter.


(** The listeners of an event: none when it was never subscribed to. *)
Definition listeners (name : string) (ev : events) : list callback :=
  match ev name with
  | Some l => l
  | None => []
  end.

(** No array is stored under an inherited name: true of a new emitter, and
    kept by [on] and [off]. *)
Definition own_names_only (ev : events) : Prop :=
  forall name, inherited name = true -> ev name = None.

Lemma emit_listeners (name : string) (ev : events) :
  inherited name = false -> emit name ev = Normal (listeners name ev).
Proof.
  intros H. unfold emit, listeners. destruct (ev name); [reflexivity|].
  now rewrite H.
Qed.

(** X4. Subscribing.  After [on(name, cb)], [emit(name)] calls the listeners
    it called before, in the same order, and then [cb]; a callback
    registered twice is called twice; the other events are as they were. *)
Theorem on_then_emit (name : string) (cb : callback) (ev : events) :
  inherited name = false ->
  exists ev',
    on name cb ev = Normal ev'
    /\ emit name ev' = Normal (listeners name ev ++ [cb])%list
    /\ (forall other, other <> name -> ev' other = ev other)
    /\ (own_names_only ev -> own_names_only ev').
Proof.
  intros H. unfold on, listeners.
  destruct (ev name) as [l|] eqn:E; [|rewrite H];
    (eexists; split; [reflexivity|]; split; [|split]).
  1, 4: unfold emit, set; now rewrite String.eqb_refl.
  1, 3: intros other Ho; unfold set;
        now apply String.eqb_neq in Ho; rewrite Ho.
  all: intros Hown n Hn; unfold set;
       destruct (String.eqb_spec n name) as [->|_];
       [rewrite H in Hn; discriminate Hn | now apply Hown].
Qed.

(** X5. Unsubscribing.  After [off(name, cb)], [emit(name)] calls the
    listeners it called before other than [cb], in the same order, and never
    [cb], however many times it was registered; the other events are as they
    were.  For an event nobody subscribed to, [off] changes nothing. *)
Theorem off_then_emit (name : string) (cb : callback) (ev : events) :
  inherited name = false ->
  exists ev',
    off name cb ev = Normal ev'
    /\ emit name ev'
       = Normal (filter (fun c => negb (c =? cb)%nat) (listeners name ev))
    /\ (forall called, emit name ev' = Normal called -> ~ In cb called)
    /\ (forall other, other <> name -> ev' other = ev other)
    /\ (ev name = None -> ev' = ev)
    /\ (own_names_only ev -> own_names_only ev').
Proof.
  intros H. unfold off, listeners.
  assert (Hnot : forall l, ~ In cb (filter (fun c => negb (c =? cb)%nat) l)).
  { intros l Hin. apply filter_In in Hin as [_ Hc].
    now rewrite Nat.eqb_refl in Hc. }
  destruct (ev name) as [l|] eqn:E; [|rewrite H]; eexists;
    (split; [reflexivity|]).
  - assert (Hemit : emit name
                      (set name (filter (fun c => negb (c =? cb)%nat) l) ev)
                    = Normal (filter (fun c => negb (c =? cb)%nat) l)).
    { unfold emit, set. now rewrite String.eqb_refl. }
    split; [exact Hemit|]. split; [|split; [|split]].
    + intros called Hc. rewrite Hemit in Hc. injection Hc as <-. apply Hnot.
    + intros other Ho. unfold set. now apply String.eqb_neq in Ho; rewrite Ho.
    + discriminate.
    + intros Hown n Hn. unfold set.
      destruct (String.eqb_spec n name) as [->|_];
        [rewrite H in Hn; discriminate Hn | now apply Hown].
  - assert (Hemit : emit name ev = Normal []).
    { unfold emit. now rewrite E, H. }
    split; [exact Hemit|]. split; [|split; [|split]].
    + intros called Hc. rewrite Hemit in Hc. injection Hc as <-. intros [].
    + reflexivity.
    + reflexivity.
    + exact (fun Hown => Hown).
Qed.

(** X6. An event named like a property every object inherits cannot be used:
    on a new emitter, and on any emitter built from one by [on] and [off],
    the three methods throw a TypeError for it. *)
Theorem inherited_event_throws (name : string) (cb : callback) (ev : events) :
  own_names_only ev ->
  inherited name = true ->
  on name cb ev = Throw (not_a_function "push")
  /\ off name cb ev = Throw (not_a_function "filter")
  /\ emit name ev = Throw (not_a_function "forEach").
Proof.
  intros Hown H. unfold on, off, emit. now rewrite (Hown name H), H.
Qed.

Lemma own_names_only_new : own_names_only new_EventEmitter.
Proof. intros name _. reflexivity. Qed.

Definition one_listener : events :=
  set "valueChanged" [1%nat] new_EventEmitter.

Lemma on_then_emit_witness :
  inherited "valueChanged" = false
  /\ on "valueChanged" 1%nat new_EventEmitter = Normal one_listener
  /\ exists ev',
       on "valueChanged" 2%nat one_listener = Normal ev'
       /\ emit "valueChanged" ev' = Normal [1; 2]%nat
       /\ ev' "reset" = None.
Proof.
  split; [reflexivity|]. split; [reflexivity|].
  destruct (on_then_emit "valueChanged" 2%nat one_listener eq_refl)
    as [ev' [H [E [F _]]]].
  exists ev'. split; [exact H|]. split; [exact E|].
  exact (F "reset" ltac:(discriminate)).
Defined.

Lemma off_then_emit_witness :
  inherited "reset" = false
  /\ exists ev ev',
       emit "reset" ev = Normal [4; 5; 4]%nat
       /\ off "reset" 4%nat ev = Normal ev'
       /\ emit "reset" ev' = Normal [5]%nat.
Proof.
  split; [reflexivity|].
  exists (set "reset" [4; 5; 4]%nat new_EventEmitter).
  destruct (off_then_emit "reset" 4%nat
              (set "reset" [4; 5; 4]%nat new_EventEmitter) eq_refl)
    as [ev' [H1 [H2 _]]].
  exists ev'. split; [reflexivity|]. split; [exact H1 | exact H2].
Defined.

Lemma inherited_event_throws_witness :
  own_names_only new_EventEmitter
  /\ inherited "toString" = true
  /\ on "toString" 1%nat new_EventEmitter
     = Throw "this.events[eventName].push is not a function".
Proof.
  split; [exact own_names_only_new|]. split; [reflexivity|].
  exact (proj1 (inherited_event_throws "toString" 1%nat new_EventEmitter
                  own_names_only_new eq_refl)).
Defined.

End Emitter.

(** * The engine under any sequence of events *)

(** ** The pending operation *)

Lemma append_nonempty_l (a b : string) : a <> "" -> a ++ b <> "".
Proof. destruct a; [easy | discriminate]. Qed.

Lemma append_nonempty_r (a b : string) : b <> "" -> a ++ b <> "".
Proof. destruct a; [easy | discriminate]. Qed.

Lemma digits_aux_nonempty (fuel : nat) (n : Z) (acc : string) :
  acc <> "" -> digits_aux fuel n acc <> "".
Proof.
  revert n acc. induction fuel as [|fuel IH]; intros n acc H; [exact H|].
  cbn [digits_aux]. destruct (n <? 10); [discriminate|].
  apply IH. discriminate.
Qed.

Lemma digits_nonempty (n : Z) : digits n <> "".
Proof.
  unfold digits. cbn [digits_aux]. destruct (n <? 10); [discriminate|].
  apply digits_aux_nonempty. discriminate.
Qed.

Lemma insert_point_nonempty (s : string) (i : nat) : insert_point s i <> "".
Proof.
  unfold insert_point. apply append_nonempty_r. discriminate.
Qed.

(** The default string form of a number is never the empty string. *)
Lemma toString_nonempty (x : number) : toString x <> "".
Proof.
  unfold toString.
  destruct (Prim2SF x) as [s|s| |s m e]; try discriminate;
    try (destruct s; discriminate).
  destruct (shortest (Z.pos m) e) as [[d k] n].
  assert (forall body : string, body <> "" ->
            (if s then "-" ++ body else body) <> "") as Hsign.
  { intros body Hb. destruct s; [discriminate | exact Hb]. }
  apply Hsign.
  destruct (_ && _); [apply append_nonempty_l, digits_nonempty|].
  destruct (_ && _); [apply insert_point_nonempty|].
  destruct (_ && _); [discriminate|].
  destruct (k =? 1);
    apply append_nonempty_l;
    [apply digits_nonempty | apply insert_point_nonempty].
Qed.

(** An operator is pending exactly when a left operand is stored, and the
    label above the display then reads "<left operand> <operator>". *)
Definition pending_consistent (m : Model) : Prop :=
  (previousValue m = "" <-> operator m = None)
  /\ (forall op, operator m = Some op ->
                 history m = previousValue m ++ " " ++ op).

Section Pending.

Variable math : MathObject.
Variable locale : Locale.

Lemma inputOperator_pending (next : string) (m : Model) :
  pending_consistent m ->
  pending_consistent (fst (inputOperator math locale next m)).
Proof.
  intros Hm. unfold inputOperator.
  destruct (isNaN (parseFloat (currentValue m))); [exact Hm|].
  assert (Hfinish : forall m1, previousValue m1 <> "" ->
            pending_consistent
              (setHistory
                 (previousValue
                    (setOperator (Some next) (setWaitingForOperand true m1))
                  ++ " " ++ next)
                 (setOperator (Some next) (setWaitingForOperand true m1)))).
  { intros m1 H1. split.
    - cbn. split; [intros H; now elim H1 | discriminate].
    - cbn. intros op Hop. now injection Hop as <-. }
  destruct (String.eqb_spec (previousValue m) "") as [Hp|Hp].
  - apply Hfinish. cbn. apply toString_nonempty.
  - destruct (truthy (operator m) && negb (isWaitingForOperand m)).
    + destruct (calculate math _ _ _ m) as [r|msg]; [|exact Hm].
      destruct (formatNumber locale r) as [formatted notices].
      apply Hfinish. cbn. apply toString_nonempty.
    + apply Hfinish. exact Hp.
Qed.

Lemma handle_pending (e : Event) (m : Model) :
  commandHistory m = new_CommandHistory ->
  pending_consistent m ->
  pending_consistent (fst (handle math locale e m)).
Proof.
  intros Hh Hm. destruct e; cbn [handle].
  - unfold inputNumber. destruct (isWaitingForOperand m); [exact Hm|].
    destruct (_ <? _)%nat; exact Hm.
  - now apply inputOperator_pending.
  - unfold inputDecimal. destruct (isWaitingForOperand m); [exact Hm|].
    destruct (negb _); exact Hm.
  - unfold equals. destruct (operator m) as [op|] eqn:Hop; [|exact Hm].
    destruct (_ || _); [exact Hm|].
    destruct (calculate math op _ _ m) as [r|msg]; [|exact Hm].
    destruct (formatNumber locale r) as [formatted notices].
    unfold addToHistory. destruct (_ <? _)%nat; (split; [easy | discriminate]).
  - split; [easy | discriminate].
  - unfold deleteLast. destruct (_ && _); exact Hm.
  - rewrite (proj2 (undo_empty m Hh)). exact Hm.
  - unfold performPercentage.
    destruct (isNaN _); [exact Hm|].
    destruct (formatNumber locale _) as [formatted notices]. exact Hm.
  - unfold performScientificFunction.
    destruct (if (func =? "pi")%string then _ else _) as [[r|msg]|];
      [|exact Hm|exact Hm].
    destruct (formatNumber locale r) as [formatted notices].
    unfold addToHistory. destruct (_ <? _)%nat; exact Hm.
  - exact Hm.
  - exact Hm.
  - exact Hm.
  - exact Hm.
  - exact Hm.
  - exact Hm.
  - destruct (nth_error _ _); exact Hm.
Qed.

(** X7. In every reachable state an operator is pending exactly when a left
    operand is stored, and the label then shows the two. *)
Theorem reachable_pending_consistent (m : Model) :
  reachable math locale m -> pending_consistent m.
Proof.
  induction 1 as [mem hist | e m Hr IH].
  - split; [easy | discriminate].
  - apply handle_pending; [|exact IH].
    now apply (reachable_commandHistory math locale).
Qed.

Lemma run_reachable (events : list Event) (m : Model) :
  reachable math locale m -> reachable math locale (run math locale events m).
Proof.
  unfold run. revert m. induction events as [|e events IH]; intros m Hm.
  - exact Hm.
  - cbn [fold_left]. apply IH. now constructor.
Qed.

End Pending.

Lemma reachable_pending_consistent_witness :
  exists events : list Event,
    forall (math : MathObject) (locale : Locale),
      reachable math locale (run math locale events fresh)
      /\ operator (run math locale events fresh) = Some "+"
      /\ previousValue (run math locale events fresh) = "5"
      /\ history (run math locale events fresh) = "5 +".
Proof.
  exists [Digit "5"; Operator "+"]. intros math locale.
  assert (Hr : reachable math locale
                 (run math locale [Digit "5"; Operator "+"] fresh))
    by exact (run_reachable math locale _ _
                (reachable_initial math locale 0%float [])).
  destruct (reachable_pending_consistent math locale _ Hr) as [_ Hlabel].
  split; [exact Hr|]. split; [reflexivity|]. split; [reflexivity|].
  exact (Hlabel "+" eq_refl).
Defined.

(** ** The calculation log under events *)

Section EngineProperties.

Variable math : MathObject.
Variable locale : Locale.

Lemma addToHistory_length (now : Z) (expression result : string) (m : Model) :
  (List.length (calculationHistory (addToHistory now expression result m))
   <= 100)%nat.
Proof.
  pose proof (append_log m (now, expression, result)) as H.
  cbn [append item_of] in H. rewrite H, length_firstn. lia.
Qed.

Lemma addToHistory_head (now : Z) (expression res : string) (m : Model) :
  hd_error (calculationHistory (addToHistory now expression res m))
  = Some {| id := now; expression := expression; result := res;
            timestamp := now |}.
Proof.
  pose proof (append_log m (now, expression, res)) as H.
  cbn [append item_of] in H. rewrite H. reflexivity.
Qed.

Lemma addToHistory_state (now : Z) (expression res : string) (m : Model) :
  getState (addToHistory now expression res m) = getState m
  /\ currentStrategy (addToHistory now expression res m) = currentStrategy m
  /\ commandHistory (addToHistory now expression res m) = commandHistory m.
Proof. exact (append_frame m (now, expression, res)). Qed.

Lemma handle_log_bounded (e : Event) (m : Model) :
  (List.length (calculationHistory m) <= 100)%nat ->
  (List.length (calculationHistory (fst (handle math locale e m))) <= 100)%nat.
Proof.
  intros Hm. destruct e; cbn [handle].
  - unfold inputNumber. destruct (isWaitingForOperand m); [exact Hm|].
    destruct (_ <? _)%nat; exact Hm.
  - unfold inputOperator. destruct (isNaN _); [exact Hm|].
    destruct (_ =? _)%string; [exact Hm|].
    destruct (_ && _); [|exact Hm].
    destruct (calculate _ _ _ _ _); [|exact Hm].
    destruct (formatNumber locale _). exact Hm.
  - unfold inputDecimal. destruct (isWaitingForOperand m); [exact Hm|].
    destruct (negb _); exact Hm.
  - unfold equals. destruct (operator m); [|exact Hm].
    destruct (_ || _); [exact Hm|].
    destruct (calculate _ _ _ _ _); [|exact Hm].
    destruct (formatNumber locale _). cbn. apply addToHistory_length.
  - exact Hm.
  - unfold deleteLast. destruct (_ && _); exact Hm.
  - unfold undo, Commands.undo. destruct (0 <=? _); [|exact Hm].
    destruct (nth_error _ _) as [c|]; [|exact Hm].
    unfold Commands.command_undo. destruct (previousState _); exact Hm.
  - unfold performPercentage. destruct (isNaN _); [exact Hm|].
    destruct (formatNumber locale _). exact Hm.
  - unfold performScientificFunction.
    destruct (if (func =? "pi")%string then _ else _) as [[r|msg]|];
      [|exact Hm|exact Hm].
    destruct (formatNumber locale _). cbn. apply addToHistory_length.
  - exact Hm.
  - exact Hm.
  - exact Hm.
  - exact Hm.
  - exact Hm.
  - cbn. lia.
  - destruct (nth_error _ _); exact Hm.
Qed.

(** X8. A log of at most 100 entries stays so under every sequence of
    events. *)
Theorem run_log_bounded (events : list Event) (m : Model) :
  (List.length (calculationHistory m) <= 100)%nat ->
  (List.length (calculationHistory (run math locale events m)) <= 100)%nat.
Proof.
  unfold run. revert m. induction events as [|e events IH]; intros m Hm.
  - exact Hm.
  - cbn [fold_left]. apply IH. now apply handle_log_bounded.
Qed.

(** X9. An event other than the clearing of the log that changes the log has
    put a new entry at its front; the entry's result is what the display now
    shows, and the next digit starts a new operand. *)
Theorem logged_result_is_displayed (e : Event) (m : Model) :
  e <> ClearHistory ->
  calculationHistory (fst (handle math locale e m)) <> calculationHistory m ->
  exists item : HistoryItem,
    hd_error (calculationHistory (fst (handle math locale e m))) = Some item
    /\ result item = currentValue (fst (handle math locale e m))
    /\ isWaitingForOperand (fst (handle math locale e m)) = true
    /\ forall num : string,
         currentValue (fst (inputNumber num (fst (handle math locale e m))))
         = num.
Proof.
  intros He Hlog.
  assert (Hlogged : forall now ex res m1,
             calculationHistory m1 = calculationHistory m ->
             currentValue m1 = res ->
             isWaitingForOperand m1 = true ->
             exists item : HistoryItem,
               hd_error (calculationHistory (addToHistory now ex res m1))
               = Some item
               /\ result item = currentValue (addToHistory now ex res m1)
               /\ isWaitingForOperand (addToHistory now ex res m1) = true
               /\ forall num : string,
                   currentValue
                     (fst (inputNumber num (addToHistory now ex res m1)))
                   = num).
  { intros now ex res m1 _ Hcur Hwait.
    destruct (addToHistory_state now ex res m1) as [Hst _].
    assert (currentValue (addToHistory now ex res m1) = res) as Hc
        by (change (st_currentValue (getState (addToHistory now ex res m1))
                    = res); now rewrite Hst).
    assert (isWaitingForOperand (addToHistory now ex res m1) = true) as Hw
        by (change (st_isWaitingForOperand
                      (getState (addToHistory now ex res m1)) = true);
            now rewrite Hst).
    eexists. split; [apply addToHistory_head|].
    split; [now rewrite Hc|]. split; [exact Hw|].
    intros num. unfold inputNumber. now rewrite Hw. }
  destruct e; cbn [handle] in *; try (now elim He);
    try (exfalso; apply Hlog; reflexivity).
  - exfalso. apply Hlog. unfold inputNumber.
    destruct (isWaitingForOperand m); [reflexivity|].
    destruct (_ <? _)%nat; reflexivity.
  - exfalso. apply Hlog. unfold inputOperator.
    destruct (isNaN _); [reflexivity|].
    destruct (_ =? _)%string; [reflexivity|].
    destruct (_ && _); [|reflexivity].
    destruct (calculate _ _ _ _ _); [|reflexivity].
    destruct (formatNumber locale _). reflexivity.
  - exfalso. apply Hlog. unfold inputDecimal.
    destruct (isWaitingForOperand m); [reflexivity|].
    destruct (negb _); reflexivity.
  - revert Hlog. unfold equals. destruct (operator m); [|(intros Hn; now elim Hn)].
    destruct (_ || _); [(intros Hn; now elim Hn)|].
    destruct (calculate _ _ _ _ _); [|(intros Hn; now elim Hn)].
    destruct (formatNumber locale _) as [formatted notices]. intros _.
    cbn [fst].
    set (ex := (previousValue m ++ _)%string).
    destruct (addToHistory_state now ex formatted m) as [Hst _].
    exists {| id := now; expression := ex; result := formatted;
              timestamp := now |}.
    split; [cbn; apply addToHistory_head|]. repeat split.
  - exfalso. apply Hlog. unfold deleteLast. destruct (_ && _); reflexivity.
  - exfalso. apply Hlog. unfold undo, Commands.undo.
    destruct (0 <=? _); [|reflexivity].
    destruct (nth_error _ _) as [c|]; [|reflexivity].
    unfold Commands.command_undo. destruct (previousState _); reflexivity.
  - exfalso. apply Hlog. unfold performPercentage.
    destruct (isNaN _); [reflexivity|].
    destruct (formatNumber locale _). reflexivity.
  - revert Hlog. unfold performScientificFunction.
    destruct (if (func =? "pi")%string then _ else _) as [[r|msg]|];
      [|(intros Hn; now elim Hn)|(intros Hn; now elim Hn)].
    destruct (formatNumber locale _) as [formatted notices]. intros _.
    cbn [fst]. apply Hlogged; reflexivity.
  - exfalso. apply Hlog. destruct (nth_error _ _); reflexivity.
Qed.

End EngineProperties.

(** A full log: the 100 entries that [hundred_and_one] leaves. *)
Definition full_log : Model := appends hundred_and_one fresh.

Lemma run_log_bounded_witness :
  List.length (calculationHistory full_log) = 100%nat
  /\ forall (math : MathObject) (locale : Locale),
       (List.length
          (calculationHistory
             (run math locale
                [Digit "1"; Operator "+"; Digit "1"; Equals 101] full_log))
        <= 100)%nat.
Proof.
  split; [vm_compute; reflexivity|]. intros math locale.
  apply (run_log_bounded math locale).
  apply Nat.leb_le. vm_compute. reflexivity.
Defined.

(** "2 + 3" typed, before the equals key. *)
Definition two_plus_three : Model :=
  {| currentValue := "3"; previousValue := "2"; operator := Some "+";
     isWaitingForOperand := false; history := "2 +"; memoryValue := 0%float;
     calculationHistory := []; currentStrategy := basic;
     commandHistory := new_CommandHistory |}.

Lemma logged_result_is_displayed_witness :
  Equals 7 <> ClearHistory
  /\ forall (math : MathObject) (locale : Locale),
       run math locale [Digit "2"; Operator "+"; Digit "3"] fresh
       = two_plus_three
       /\ calculationHistory
            (fst (handle math locale (Equals 7) two_plus_three))
          <> calculationHistory two_plus_three
       /\ exists item : HistoryItem,
            hd_error
              (calculationHistory
                 (fst (handle math locale (Equals 7) two_plus_three)))
            = Some item
            /\ result item = "5"
            /\ currentValue
                 (fst (handle math locale (Digit "9")
                         (fst (handle math locale (Equals 7)
                                 two_plus_three))))
               = "9".
Proof.
  split; [discriminate|]. intros math locale.
  split; [vm_compute; reflexivity|].
  assert (Hlog : calculationHistory
                   (fst (handle math locale (Equals 7) two_plus_three))
                 <> calculationHistory two_plus_three)
    by (vm_compute; discriminate).
  split; [exact Hlog|].
  destruct (logged_result_is_displayed math locale (Equals 7) two_plus_three
              ltac:(discriminate) Hlog)
    as [item [Hhd [Hres [_ Hnext]]]].
  exists item. split; [exact Hhd|]. split.
  - rewrite Hres. vm_compute. reflexivity.
  - exact (Hnext "9").
Defined.

(** ** What an event can write *)

Section EngineFrames.

Variable math : MathObject.
Variable locale : Locale.

(** X10. Which events can write which part of the model.  Only the memory
    keys write the memory, only the mode toggle the strategy, only the equals
    key, a scientific function and the clearing of the log write the log,
    only an operator, the equals key and the clear key write the pending
    operation and its label; the memory keys other than recall, the mode
    toggle and the clearing of the log leave the display alone.  [Undo] is
    listed with the writers of what a snapshot holds. *)
Theorem event_frame (e : Event) (m : Model) :
  let m' := fst (handle math locale e m) in
  match e with
  | MemoryClear | MemoryAdd | MemorySubtract | Undo => True
  | _ => memoryValue m' = memoryValue m
  end
  /\ match e with
     | Mode _ => True
     | _ => currentStrategy m' = currentStrategy m
     end
  /\ match e with
     | Equals _ | Function _ _ | ClearHistory => True
     | _ => calculationHistory m' = calculationHistory m
     end
  /\ match e with
     | Operator _ | Equals _ | Clear | Undo => True
     | _ => previousValue m' = previousValue m
            /\ operator m' = operator m
            /\ history m' = history m
     end
  /\ match e with
     | MemoryClear | MemoryAdd | MemorySubtract | Mode _ | ClearHistory =>
         currentValue m' = currentValue m
         /\ isWaitingForOperand m' = isWaitingForOperand m
     | _ => True
     end.
Proof.
  cbv zeta.
  assert (Hundo : currentStrategy (fst (undo m)) = currentStrategy m
                  /\ calculationHistory (fst (undo m)) = calculationHistory m).
  { unfold undo, Commands.undo. destruct (0 <=? _); [|now split].
    destruct (nth_error _ _) as [c|]; [|now split].
    unfold Commands.command_undo. destruct (previousState _); now split. }
  destruct e; cbn [handle];
    try (destruct (undo m) as [m' [notices|msg]]; cbn [fst] in *; tauto);
    unfold inputNumber, inputOperator, inputDecimal, equals, clear, deleteLast,
      performPercentage, performScientificFunction, memoryClearClick,
      memoryRecallClick, memoryAddClick, memorySubtractClick,
      handleModeToggle, handleClearHistory, loadFromHistory, addToHistory,
      memoryClear, memoryAdd, memorySubtract, clearHistory;
    repeat match goal with
      | |- context [match ?x with _ => _ end] => destruct x
      end;
    cbn; auto 10.
Qed.

(** X11. Whatever was done since start-up, the undo key restores nothing: the
    model is left as it is and the toast says "Nothing to undo". *)
Theorem undo_key_restores_nothing
  (savedMemory : number) (savedHistory : list HistoryItem)
  (events : list Event) :
  handle math locale Undo
    (run math locale events (initial savedMemory savedHistory))
  = (run math locale events (initial savedMemory savedHistory),
     [showToast "Nothing to undo" "error"]).
Proof.
  cbn [handle].
  rewrite (proj2 (undo_empty _ (reachable_commandHistory math locale _
             (run_reachable math locale events _
                (reachable_initial math locale savedMemory savedHistory))))).
  reflexivity.
Qed.

(** X12. Pressing the equals key a second time does nothing more: the model
    after two presses is the model after one. *)
Theorem equals_twice (now now' : Z) (m : Model) :
  fst (equals math locale now' (fst (equals math locale now m)))
  = fst (equals math locale now m).
Proof.
  unfold equals at 2 3.
  destruct (operator m) as [op|] eqn:Hop.
  - destruct (_ || _) eqn:Hguard.
    + cbn [fst]. unfold equals. now rewrite Hop, Hguard.
    + destruct (calculate math op _ _ m) as [r|msg] eqn:Hcalc.
      * destruct (formatNumber locale r) as [formatted notices].
        cbn [fst]. reflexivity.
      * cbn [fst]. unfold equals. now rewrite Hop, Hguard, Hcalc.
  - cbn [fst]. unfold equals. now rewrite Hop.
Qed.

End EngineFrames.

(** ** Keys pressed again *)

Lemma but_last_length (s : string) :
  String.length (but_last s) = (String.length s - 1)%nat.
Proof.
  induction s as [|c r IH]; [reflexivity|].
  destruct r as [|d r']; [reflexivity|].
  change (but_last (String c (String d r')))
    with (String c (but_last (String d r'))).
  cbn [String.length] in *. lia.
Qed.

Lemma includes_char_append (c : ascii) (s : string) :
  includes_char c (s ++ String c "") = true.
Proof.
  induction s as [|d r IH]; cbn [String.append includes_char].
  - now rewrite Ascii.eqb_refl.
  - rewrite IH. apply orb_true_r.
Qed.

Section Keys.

Variable math : MathObject.
Variable locale : Locale.

Lemma deleteLast_shorter (m : Model) :
  currentValue (fst (deleteLast m)) <> ""
  /\ (String.length (currentValue (fst (deleteLast m)))
      <= Nat.max 1 (String.length (currentValue m) - 1))%nat.
Proof.
  unfold deleteLast.
  destruct (Nat.ltb_spec 1 (String.length (currentValue m))) as [Hlen|Hlen];
    cbn [andb]; [destruct (negb _)|];
    cbn [fst currentValue setCurrentValue].
  - rewrite drop_last_but_last. split.
    + intros H. apply (f_equal String.length) in H.
      rewrite but_last_length in H. cbn [String.length] in H. lia.
    + rewrite but_last_length. lia.
  - split; [discriminate | cbn [String.length]; lia].
  - split; [discriminate | cbn [String.length]; lia].
Qed.

(** X13. The delete key never leaves the display empty, and pressing it at
    least as many times as the display has characters (and at least once)
    leaves "0". *)
Theorem backspace_to_zero (n : nat) (m : Model) :
  (1 <= n)%nat ->
  (String.length (currentValue m) <= n)%nat ->
  currentValue (fst (deleteLast m)) <> ""
  /\ currentValue (run math locale (repeat Delete n) m) = "0".
Proof.
  intros Hn Hlen. split; [apply deleteLast_shorter|].
  revert m Hlen. induction n as [|n IH]; intros m Hlen; [lia|].
  unfold run. cbn [repeat fold_left handle].
  destruct n as [|n'].
  - cbn [repeat fold_left]. unfold deleteLast.
    destruct (Nat.ltb_spec 1 (String.length (currentValue m))); [lia|].
    reflexivity.
  - apply IH; [lia|].
    pose proof (deleteLast_shorter m) as [_ H]. lia.
Qed.

(** X14. A second press of the decimal point changes nothing: the model
    after two presses is the model after one. *)
Theorem inputDecimal_twice (m : Model) :
  fst (inputDecimal (fst (inputDecimal m))) = fst (inputDecimal m).
Proof.
  unfold inputDecimal at 2 3.
  destruct (isWaitingForOperand m) eqn:Hw; [reflexivity|].
  destruct (includes_char "." (currentValue m)) eqn:Hdot; cbn [negb fst].
  - unfold inputDecimal. now rewrite Hw, Hdot.
  - unfold inputDecimal.
    cbn [isWaitingForOperand setCurrentValue currentValue].
    now rewrite Hw, includes_char_append.
Qed.

Lemma inputOperator_waiting (next : string) (m : Model) :
  isNaN (parseFloat (currentValue m)) = false ->
  previousValue m = "" \/ isWaitingForOperand m = true ->
  fst (inputOperator math locale next m)
  = setHistory
      ((if (previousValue m =? "")%string
        then toString (parseFloat (currentValue m)) else previousValue m)
       ++ " " ++ next)
      (setOperator (Some next)
         (setWaitingForOperand true
            (setPreviousValue
               (if (previousValue m =? "")%string
                then toString (parseFloat (currentValue m))
                else previousValue m) m))).
Proof.
  intros Hnan Hm. unfold inputOperator. rewrite Hnan.
  destruct (String.eqb_spec (previousValue m) "") as [Hp|Hp]; [reflexivity|].
  destruct Hm as [Hm|Hm]; [now elim Hp|].
  rewrite Hm, andb_false_r. now destruct m.
Qed.

(** X15. Of two operators pressed in a row, with no operand typed between
    them, the last one wins and nothing is calculated: the model is the one
    the second operator alone would have given. *)
Theorem last_operator_wins (op1 op2 : string) (m : Model) :
  previousValue m = "" \/ isWaitingForOperand m = true ->
  run math locale [Operator op1; Operator op2] m
  = run math locale [Operator op2] m.
Proof.
  intros Hm. unfold run. cbn [fold_left handle].
  destruct (isNaN (parseFloat (currentValue m))) eqn:Hnan.
  - unfold inputOperator at 2. rewrite Hnan. reflexivity.
  - rewrite (inputOperator_waiting op1 m Hnan Hm).
    rewrite (inputOperator_waiting op2 m Hnan Hm).
    rewrite inputOperator_waiting; [|exact Hnan| right; reflexivity].
    cbn [previousValue currentValue setHistory setOperator
         setWaitingForOperand setPreviousValue].
    destruct (previousValue m =? "")%string eqn:Hp.
    + destruct (String.eqb_spec (toString (parseFloat (currentValue m))) "")
        as [Ht|Ht]; [|reflexivity].
      now elim (toString_nonempty _ Ht).
    + rewrite Hp. reflexivity.
Qed.

End Keys.

Lemma backspace_to_zero_witness :
  (1 <= 3)%nat
  /\ (String.length (currentValue (setCurrentValue "-12" fresh)) <= 3)%nat
  /\ forall (math : MathObject) (locale : Locale),
       currentValue
         (run math locale [Delete; Delete] (setCurrentValue "-12" fresh))
       = "-"
       /\ currentValue
            (run math locale (repeat Delete 3) (setCurrentValue "-12" fresh))
          = "0".
Proof.
  split; [lia|]. split; [cbn; lia|]. intros math locale.
  split; [vm_compute; reflexivity|].
  exact (proj2 (backspace_to_zero math locale 3
                  (setCurrentValue "-12" fresh)
                  ltac:(lia) ltac:(cbn; lia))).
Defined.

Lemma last_operator_wins_witness :
  (previousValue fresh = "" \/ isWaitingForOperand fresh = true)
  /\ forall (math : MathObject) (locale : Locale),
       run math locale [Operator "+"; Operator "*"] fresh
       = run math locale [Operator "*"] fresh
       /\ history (run math locale [Operator "+"; Operator "*"] fresh)
          = "0 *".
Proof.
  split; [left; reflexivity|]. intros math locale. split.
  - exact (last_operator_wins math locale "+" "*" fresh
             (or_introl eq_refl)).
  - vm_compute. reflexivity.
Defined.

(** ** Failures *)

Section Failures.

Variable math : MathObject.
Variable locale : Locale.

Lemma scientific_has_no_arithmetic (op : string) :
  In op ["+"; "-"; "*"; "/"; "%"] ->
  CalculationStrategies.operations math scientific op = None.
Proof.
  intros H. cbn [In] in H.
  repeat (destruct H as [<-|H]; [reflexivity|]). contradiction.
Qed.

(** X16. Under the scientific strategy the five arithmetic operators are
    unknown operations: [calculate] throws, the equals key and a chained
    operator show "Unknown operation: <op>" and leave the model as it is. *)
Theorem scientific_mode_rejects_arithmetic (op : string) (m : Model) :
  In op ["+"; "-"; "*"; "/"; "%"] ->
  currentStrategy m = scientific ->
  (forall a b : number,
      calculate math op a b m = Throw ("Unknown operation: " ++ op))
  /\ (forall now : Z,
         operator m = Some op ->
         previousValue m <> "" ->
         isNaN (parseFloat (currentValue m)) = false ->
         equals math locale now m
         = (m, [showError ("Unknown operation: " ++ op)]))
  /\ (forall next : string,
         operator m = Some op ->
         previousValue m <> "" ->
         isWaitingForOperand m = false ->
         isNaN (parseFloat (currentValue m)) = false ->
         inputOperator math locale next m
         = (m, [showError ("Unknown operation: " ++ op)])).
Proof.
  intros Hop Hs.
  assert (Hcalc : forall a b,
             calculate math op a b m = Throw ("Unknown operation: " ++ op)).
  { intros a b. unfold calculate.
    now rewrite Hs, (scientific_has_no_arithmetic op Hop). }
  assert (Hne : op <> "").
  { intros ->. cbn [In] in Hop.
    repeat (destruct Hop as [Hop|Hop]; [discriminate|]). contradiction. }
  split; [exact Hcalc|]. split.
  - intros now Ho Hp Hnan. unfold equals. rewrite Ho, Hnan.
    destruct (String.eqb_spec (previousValue m) ""); [contradiction|].
    cbn [orb]. now rewrite Hcalc.
  - intros next Ho Hp Hw Hnan. unfold inputOperator. rewrite Hnan.
    destruct (String.eqb_spec (previousValue m) ""); [contradiction|].
    rewrite Ho, Hw. cbn [truthy operator_text].
    destruct (String.eqb_spec op ""); [contradiction|].
    cbn [negb andb]. now rewrite Hcalc.
Qed.

Lemma formatNumber_invalid (r : number) :
  invalid r = true ->
  formatNumber locale r = ("0", [showError "Invalid number"]).
Proof.
  unfold invalid, formatNumber, CalculatorModel.formatNumber.
  now intros ->.
Qed.

(** X17. A result that is NaN or infinite is shown and logged as "0" with
    the error "Invalid number".  After the equals key the operation is
    closed; after a chained operator the stored left operand is the text of
    the invalid result while the display shows "0". *)
Theorem invalid_result_shows_zero (op : string) (r : number) (m : Model) :
  operator m = Some op ->
  op <> "" ->
  previousValue m <> "" ->
  isNaN (parseFloat (currentValue m)) = false ->
  calculate math op (parseFloat (previousValue m))
    (parseFloat (currentValue m)) m = Normal r ->
  invalid r = true ->
  (forall now : Z,
      let expression :=
        previousValue m ++ " " ++ op ++ " "
        ++ toString (parseFloat (currentValue m)) in
      equals math locale now m
      = (setHistory (expression ++ " =")
           (setWaitingForOperand true
              (setOperator None
                 (setPreviousValue ""
                    (setCurrentValue "0"
                       (addToHistory now expression "0" m))))),
         [showError "Invalid number"; announceToScreenReader "Result: 0"]))
  /\ (forall next : string,
         isWaitingForOperand m = false ->
         inputOperator math locale next m
         = (setHistory (toString r ++ " " ++ next)
              (setOperator (Some next)
                 (setWaitingForOperand true
                    (setPreviousValue (toString r)
                       (setCurrentValue "0" m)))),
            [showError "Invalid number"])).
Proof.
  intros Ho Hne Hp Hnan Hcalc Hinv. split.
  - intros now. cbv zeta. unfold equals. rewrite Ho, Hnan.
    destruct (String.eqb_spec (previousValue m) ""); [contradiction|].
    cbn [orb]. rewrite Hcalc, (formatNumber_invalid r Hinv). reflexivity.
  - intros next Hw. unfold inputOperator. rewrite Hnan.
    destruct (String.eqb_spec (previousValue m) ""); [contradiction|].
    rewrite Ho, Hw. cbn [truthy operator_text].
    destruct (String.eqb_spec op ""); [contradiction|].
    cbn [negb andb]. rewrite Hcalc, (formatNumber_invalid r Hinv).
    reflexivity.
Qed.

Lemma formatNumber_PI : formatNumber locale Math_PI = ("3.14159e+0", []).
Proof. vm_compute. reflexivity. Qed.

Lemma formatNumber_E : formatNumber locale Math_E = ("2.71828e+0", []).
Proof. vm_compute. reflexivity. Qed.

(** X18. The constant keys do not read the display: whatever it shows, "pi"
    writes "3.14159e+0" and "e" writes "2.71828e+0", a new operand is
    awaited and the entry logged is the constant's name with that text.  The
    text is the constant to six significant digits, and it is the text that
    the next operation reads: it does not parse back to the constant. *)
Theorem constants_are_shown_rounded (now : Z) (m : Model) :
  performScientificFunction math locale now "pi" m
  = (addToHistory now "pi" "3.14159e+0"
       (setWaitingForOperand true (setCurrentValue "3.14159e+0" m)),
     [clearError; announceToScreenReader "pi result: 3.14159e+0"])
  /\ performScientificFunction math locale now "e" m
     = (addToHistory now "e" "2.71828e+0"
          (setWaitingForOperand true (setCurrentValue "2.71828e+0" m)),
        [clearError; announceToScreenReader "e result: 2.71828e+0"])
  /\ strict_eq (parseFloat "3.14159e+0") Math_PI = false
  /\ strict_eq (parseFloat "2.71828e+0") Math_E = false.
Proof.
  split; [|split; [|split; vm_compute; reflexivity]].
  - unfold performScientificFunction.
    change ("pi" =? "pi")%string with true. cbv iota. cbn [orb].
    rewrite formatNumber_PI. reflexivity.
  - unfold performScientificFunction.
    change ("e" =? "pi")%string with false.
    change ("e" =? "e")%string with true. cbv iota. cbn [orb].
    rewrite formatNumber_E. reflexivity.
Qed.

(** X19. The domain errors of the scientific functions.  With a display that
    reads as the number x, "log" and "ln" fail when x <= 0, "sqrt" fails
    when x < 0 and "factorial" fails when x is negative, not an integer or
    above 170; with a display that does not read as a number every function
    fails.  A failure shows the function's message and leaves the model as
    it is: nothing is written or logged. *)
Theorem function_domain_errors (now : Z) (m : Model) :
  let x := parseFloat (currentValue m) in
  (isNaN x = false ->
   (le x 0%float = true ->
    performScientificFunction math locale now "log" m
    = (m, [clearError; showError "Invalid logarithm input"])
    /\ performScientificFunction math locale now "ln" m
       = (m, [clearError; showError "Invalid natural logarithm input"]))
   /\ (lt x 0%float = true ->
       performScientificFunction math locale now "sqrt" m
       = (m, [clearError; showError "Invalid square root input"]))
   /\ (lt x 0%float || negb (isInteger x) || gt x 170%float = true ->
       performScientificFunction math locale now "factorial" m
       = (m, [clearError; showError "Invalid factorial input"])))
  /\ (isNaN x = true ->
      forall func : string,
        func <> "pi" -> func <> "e" ->
        performScientificFunction math locale now func m
        = (m, [clearError; showError "Invalid input for function"])).
Proof.
  cbv zeta. split.
  - intros Hnan. split; [|split].
    + intros Hle. split; unfold performScientificFunction;
        cbv beta iota zeta delta [String.eqb Ascii.eqb Bool.eqb];
        rewrite Hnan; unfold scientificCalculate;
        cbv beta iota zeta delta
          [CalculationStrategies.scientific_operations
             String.eqb Ascii.eqb Bool.eqb];
        rewrite Hle; reflexivity.
    + intros Hlt. unfold performScientificFunction.
      cbv beta iota zeta delta [String.eqb Ascii.eqb Bool.eqb].
      rewrite Hnan. unfold scientificCalculate.
      cbv beta iota zeta delta
        [CalculationStrategies.scientific_operations
           String.eqb Ascii.eqb Bool.eqb].
      rewrite Hlt. reflexivity.
    + intros Hguard. unfold performScientificFunction.
      cbv beta iota zeta delta [String.eqb Ascii.eqb Bool.eqb].
      rewrite Hnan. unfold scientificCalculate.
      cbv beta iota zeta delta
        [CalculationStrategies.scientific_operations
           String.eqb Ascii.eqb Bool.eqb].
      unfold CalculationStrategies.factorial,
        CalculationStrategies.factorial_guard.
      rewrite Hguard. reflexivity.
  - intros Hnan func Hpi He. unfold performScientificFunction.
    destruct (String.eqb_spec func "pi"); [contradiction|].
    destruct (String.eqb_spec func "e"); [contradiction|].
    now rewrite Hnan.
Qed.

End Failures.

(** "5 + 3" typed, then the scientific mode selected. *)
Definition five_plus_three_scientific : Model :=
  {| currentValue := "3"; previousValue := "5"; operator := Some "+";
     isWaitingForOperand := false; history := "5 +"; memoryValue := 0%float;
     calculationHistory := []; currentStrategy := scientific;
     commandHistory := new_CommandHistory |}.

Lemma scientific_mode_rejects_arithmetic_witness :
  In "+" ["+"; "-"; "*"; "/"; "%"]
  /\ currentStrategy five_plus_three_scientific = scientific
  /\ forall (math : MathObject) (locale : Locale),
       run math locale
         [Digit "5"; Operator "+"; Digit "3"; Mode "scientific"] fresh
       = five_plus_three_scientific
       /\ equals math locale 7 five_plus_three_scientific
          = (five_plus_three_scientific, [showError "Unknown operation: +"]).
Proof.
  split; [left; reflexivity|]. split; [reflexivity|]. intros math locale.
  split; [vm_compute; reflexivity|].
  exact (proj1 (proj2 (scientific_mode_rejects_arithmetic math locale "+"
                         five_plus_three_scientific
                         (or_introl eq_refl) eq_refl))
           7 eq_refl ltac:(discriminate) eq_refl).
Defined.

(** "0 % 0" typed, before the equals key. *)
Definition zero_modulo_zero : Model :=
  {| currentValue := "0"; previousValue := "0"; operator := Some "%";
     isWaitingForOperand := false; history := "0 %"; memoryValue := 0%float;
     calculationHistory := []; currentStrategy := basic;
     commandHistory := new_CommandHistory |}.

Lemma invalid_result_shows_zero_witness :
  operator zero_modulo_zero = Some "%"
  /\ invalid nan = true
  /\ forall (math : MathObject) (locale : Locale),
       run math locale [Digit "0"; Operator "%"; Digit "0"] fresh
       = zero_modulo_zero
       /\ calculate math "%" 0%float 0%float zero_modulo_zero = Normal nan
       /\ equals math locale 7 zero_modulo_zero
          = ({| currentValue := "0"; previousValue := ""; operator := None;
                isWaitingForOperand := true; history := "0 % 0 =";
                memoryValue := 0%float;
                calculationHistory :=
                  [{| id := 7; expression := "0 % 0"; result := "0";
                      timestamp := 7 |}];
                currentStrategy := basic;
                commandHistory := new_CommandHistory |},
             [showError "Invalid number";
              announceToScreenReader "Result: 0"]).
Proof.
  split; [reflexivity|]. split; [reflexivity|]. intros math locale.
  split; [vm_compute; reflexivity|]. split; [vm_compute; reflexivity|].
  exact (proj1 (invalid_result_shows_zero math locale "%" nan
                  zero_modulo_zero eq_refl ltac:(discriminate)
                  ltac:(discriminate) eq_refl eq_refl eq_refl) 7).
Defined.

Lemma function_domain_errors_witness :
  isNaN (parseFloat "-4") = false
  /\ lt (parseFloat "-4") 0%float = true
  /\ forall (math : MathObject) (locale : Locale),
       performScientificFunction math locale 7 "sqrt"
         (setCurrentValue "-4" fresh)
       = (setCurrentValue "-4" fresh,
          [clearError; showError "Invalid square root input"]).
Proof.
  split; [vm_compute; reflexivity|]. split; [vm_compute; reflexivity|].
  intros math locale.
  pose proof (function_domain_errors math locale 7
                (setCurrentValue "-4" fresh)) as H.
  cbv zeta in H. destruct H as [H _].
  destruct (H ltac:(vm_compute; reflexivity)) as [_ [Hsqrt _]].
  exact (Hsqrt ltac:(vm_compute; reflexivity)).
Defined.

(** ** Chained operations *)

Section Chain.

Variable math : MathObject.
Variable locale : Locale.

(** X22. An operator pressed while an operation is pending and its right
    operand has been entered shows what the equals key would show, and fails
    where it would fail; unlike the equals key it logs nothing, and on
    success it keeps the result, in its default string form, as the left
    operand of the operator pressed. *)
Theorem chained_operator_matches_equals
  (next op : string) (now : Z) (m : Model) :
  operator m = Some op ->
  op <> "" ->
  previousValue m <> "" ->
  isWaitingForOperand m = false ->
  isNaN (parseFloat (currentValue m)) = false ->
  currentValue (fst (inputOperator math locale next m))
  = currentValue (fst (equals math locale now m))
  /\ calculationHistory (fst (inputOperator math locale next m))
     = calculationHistory m
  /\ match calculate math op (parseFloat (previousValue m))
             (parseFloat (currentValue m)) m with
     | Normal r =>
         previousValue (fst (inputOperator math locale next m)) = toString r
         /\ operator (fst (inputOperator math locale next m)) = Some next
         /\ isWaitingForOperand (fst (inputOperator math locale next m))
            = true
         /\ snd (equals math locale now m)
            = (snd (inputOperator math locale next m)
               ++ [announceToScreenReader
                     ("Result: "
                      ++ currentValue (fst (equals math locale now m)))])%list
     | Throw msg =>
         inputOperator math locale next m = (m, [showError msg])
         /\ equals math locale now m = (m, [showError msg])
     end.
Proof.
  intros Ho Hne Hp Hw Hnan. unfold inputOperator, equals.
  rewrite Ho, Hnan, Hw.
  destruct (String.eqb_spec (previousValue m) ""); [contradiction|].
  cbn [truthy operator_text orb].
  destruct (String.eqb_spec op ""); [contradiction|].
  cbn [negb andb].
  destruct (calculate math op _ _ m) as [r|msg].
  - destruct (formatNumber locale r) as [formatted notices].
    cbn [fst snd]. repeat split.
  - repeat split.
Qed.

End Chain.

Lemma chained_operator_matches_equals_witness :
  operator two_plus_three = Some "+"
  /\ previousValue two_plus_three <> ""
  /\ isWaitingForOperand two_plus_three = false
  /\ isNaN (parseFloat (currentValue two_plus_three)) = false
  /\ forall (math : MathObject) (locale : Locale),
       currentValue (fst (inputOperator math locale "*" two_plus_three))
       = currentValue (fst (equals math locale 7 two_plus_three))
       /\ fst (inputOperator math locale "*" two_plus_three)
          = {| currentValue := "5"; previousValue := "5";
               operator := Some "*"; isWaitingForOperand := true;
               history := "5 *"; memoryValue := 0%float;
               calculationHistory := []; currentStrategy := basic;
               commandHistory := new_CommandHistory |}.
Proof.
  split; [reflexivity|]. split; [discriminate|]. split; [reflexivity|].
  split; [vm_compute; reflexivity|]. intros math locale.
  split; [|vm_compute; reflexivity].
  exact (proj1 (chained_operator_matches_equals math locale "*" "+" 7
                  two_plus_three eq_refl ltac:(discriminate)
                  ltac:(discriminate) eq_refl
                  ltac:(vm_compute; reflexivity))).
Defined.

(** ** The keyboard and the valid inputs *)



(** X21. The valid inputs are the one-character keys that [handleKeyboard]
    dispatches by themselves, and the two parentheses; for the listener that
    [bindEvents] registers, which runs with the document as [this] and
    throws on ".", they are those keys, "." and the two parentheses. *)
Theorem validateInput_keys (this : Receiver) (now : Z) (input : string) :
  validateInput input = true
  <-> (String.length input = 1%nat
       /\ exists e : Event,
            handleKeyboard this now input false = Normal (Some e))
      \/ (this = document /\ input = ".")
      \/ input = "(" \/ input = ")".
Proof.
  split.
  - destruct input as [|c [|d rest]]; try discriminate.
    destruct c as [[] [] [] [] [] [] [] []]; intros H;
      try discriminate H;
      first [ right; right; left; reflexivity
            | right; right; right; reflexivity
            | left; split; [reflexivity|];
              eexists; vm_compute; reflexivity
            | destruct this;
              [ left; split; [reflexivity|];
                eexists; vm_compute; reflexivity
              | right; left; split; reflexivity ] ].
  - intros [[Hlen [e He]]|[[_ ->]|[->| ->]]];
      [|reflexivity|reflexivity|reflexivity].
    destruct input as [|c [|d rest]]; try discriminate Hlen.
    destruct c as [[] [] [] [] [] [] [] []];
      first [ reflexivity
            | destruct this; vm_compute in He; discriminate He ].
Qed.
